(** * Portfolio ledger replay and rebalance trims

    A shallow embedding of [scripts/rebalance_portfolio.py]:
    [compute_holdings_and_cash], [compute_weights] and
    [build_rebalance_trades], with Python's [int] as [Z], [str] as
    [string] holding the UTF-8 bytes, [dict] as an insertion-ordered
    association list and
    [float] as IEEE-754 binary64 ([spec_float] at precision 53). *)

From Stdlib Require Import ZArith List String Ascii Bool Lia Permutation.
From Stdlib Require Import SpecFloat.
Import ListNotations.

Local Open Scope Z_scope.

(** ** Python exceptions and fallible results *)

Inductive py_error : Type :=
  | RuntimeError (total_nav_cents : Z)   (* "Total NAV is non-positive" *)
  | OverflowError
  | ValueError
  | ZeroDivisionError.

Inductive result (A : Type) : Type :=
  | Ok (a : A)
  | Raise (e : py_error).

Arguments Ok {A} a.
Arguments Raise {A} e.

Definition bind {A B : Type} (r : result A) (k : A -> result B) : result B :=
  match r with
  | Ok a => k a
  | Raise e => Raise e
  end.

Notation "x <- r ;; k" := (bind r (fun x => k))
  (at level 61, r at next level, right associativity).
Notation "' p <- r ;; k" := (bind r (fun x => let 'p := x in k))
  (at level 61, p pattern, r at next level, right associativity).

(** ** Python floats: binary64 *)

Module PyFloat.

Definition prec : Z := 53.
Definition emax : Z := 1024.

Definition float : Type := spec_float.

Definition is_finite (x : float) : bool :=
  match x with
  | S754_zero _ | S754_finite _ _ _ => true
  | S754_infinity _ | S754_nan => false
  end.

Definition sign_bit (x : float) : bool :=
  match x with
  | S754_zero s | S754_infinity s | S754_finite s _ _ => s
  | S754_nan => false
  end.

Definition zero : float := S754_zero false.

(** [float(n)] for an [int]: the nearest double, ties to even;
    "int too large to convert to float" when it rounds out of range. *)
Definition of_int (n : Z) : result float :=
  let x := binary_normalize prec emax n 0 false in
  if is_finite x then Ok x else Raise OverflowError.

(** [a / b] on two [int]s: the correctly rounded quotient. *)
Definition int_truediv (a b : Z) : result float :=
  if b =? 0 then Raise ZeroDivisionError
  else if a =? 0 then Ok (S754_zero (b <? 0))
  else
    let '(q, e, l) := SFdiv_core_binary prec emax (Z.abs a) 0 (Z.abs b) 0 in
    let x := binary_round_aux prec emax (xorb (a <? 0) (b <? 0)) q e l in
    if is_finite x then Ok x else Raise OverflowError.

(** [x * n] for a float [x] and an [int] [n]. *)
Definition mul_int (x : float) (n : Z) : result float :=
  y <- of_int n ;; Ok (SFmul prec emax x y).

(** [x / n] for a float [x] and an [int] [n]. *)
Definition div_int (x : float) (n : Z) : result float :=
  y <- of_int n ;;
  if n =? 0 then Raise ZeroDivisionError else Ok (SFdiv prec emax x y).

Definition abs (x : float) : float := SFabs x.

Definition leb (x y : float) : bool := SFleb x y.

(** [math.copysign(x, y)]. *)
Definition copysign (x y : float) : float :=
  match x with
  | S754_zero _ => S754_zero (sign_bit y)
  | S754_infinity _ => S754_infinity (sign_bit y)
  | S754_finite _ m e => S754_finite (sign_bit y) m e
  | S754_nan => S754_nan
  end.

(** [floor (n * 2^e)] for an integer [n]; [Z.shiftl] with a negative
    shift divides, rounding toward minus infinity. *)
Definition scale_floor (n : Z) (e : Z) : Z := Z.shiftl n e.

(** [int(x)]: truncation toward zero. *)
Definition to_int (x : float) : result Z :=
  match x with
  | S754_zero _ => Ok 0
  | S754_finite s m e => Ok (cond_Zopp s (scale_floor (Zpos m) e))
  | S754_infinity _ => Raise OverflowError
  | S754_nan => Raise ValueError
  end.

(** [math.floor(x)]. *)
Definition floor (x : float) : result Z :=
  match x with
  | S754_zero _ => Ok 0
  | S754_finite s m e => Ok (scale_floor (cond_Zopp s (Zpos m)) e)
  | S754_infinity _ => Raise OverflowError
  | S754_nan => Raise ValueError
  end.

(** [math.copysign(x, y)] applied to two [int]s. *)
Definition copysign_int (x y : Z) : result float :=
  fx <- of_int x ;; fy <- of_int y ;; Ok (copysign fx fy).

(** The literals [0.15], [0.0] and [1.0]. *)
Definition lit_0_15 : float := S754_finite false 5404319552844595 (-55).
Definition lit_1_0 : float := S754_finite false 4503599627370496 (-52).

End PyFloat.

(** ** Python strings *)

Module PyStr.

(** Truthiness of a [str]: non-empty. *)
Definition truthy (s : string) : bool :=
  match s with
  | EmptyString => false
  | String _ _ => true
  end.

(** [a > b]: lexicographic order on character codes. *)
Definition gtb (a b : string) : bool :=
  match String.compare a b with
  | Gt => true
  | _ => false
  end.

Definition upper_char (c : ascii) : ascii :=
  let n := N_of_ascii c in
  if (97 <=? n)%N && (n <=? 122)%N then ascii_of_N (n - 32) else c.

(** [str.upper()] maps each character to its upper-case string. The
    characters outside ASCII that it changes, by code point, with the
    code points of their upper-case (Unicode 14, as CPython 3.11 has
    it); some become two or three characters. *)
Definition upper_table : list (N * list N) :=
  [
  (181, [924]); (223, [83; 83]); (224, [192]); (225, [193]); (226, [194]);
  (227, [195]); (228, [196]); (229, [197]); (230, [198]); (231, [199]);
  (232, [200]); (233, [201]); (234, [202]); (235, [203]); (236, [204]);
  (237, [205]); (238, [206]); (239, [207]); (240, [208]); (241, [209]);
  (242, [210]); (243, [211]); (244, [212]); (245, [213]); (246, [214]);
  (248, [216]); (249, [217]); (250, [218]); (251, [219]); (252, [220]);
  (253, [221]); (254, [222]); (255, [376]); (257, [256]); (259, [258]);
  (261, [260]); (263, [262]); (265, [264]); (267, [266]); (269, [268]);
  (271, [270]); (273, [272]); (275, [274]); (277, [276]); (279, [278]);
  (281, [280]); (283, [282]); (285, [284]); (287, [286]); (289, [288]);
  (291, [290]); (293, [292]); (295, [294]); (297, [296]); (299, [298]);
  (301, [300]); (303, [302]); (305, [73]); (307, [306]); (309, [308]);
  (311, [310]); (314, [313]); (316, [315]); (318, [317]); (320, [319]);
  (322, [321]); (324, [323]); (326, [325]); (328, [327]); (329, [700; 78]);
  (331, [330]); (333, [332]); (335, [334]); (337, [336]); (339, [338]);
  (341, [340]); (343, [342]); (345, [344]); (347, [346]); (349, [348]);
  (351, [350]); (353, [352]); (355, [354]); (357, [356]); (359, [358]);
  (361, [360]); (363, [362]); (365, [364]); (367, [366]); (369, [368]);
  (371, [370]); (373, [372]); (375, [374]); (378, [377]); (380, [379]);
  (382, [381]); (383, [83]); (384, [579]); (387, [386]); (389, [388]);
  (392, [391]); (396, [395]); (402, [401]); (405, [502]); (409, [408]);
  (410, [573]); (414, [544]); (417, [416]); (419, [418]); (421, [420]);
  (424, [423]); (429, [428]); (432, [431]); (436, [435]); (438, [437]);
  (441, [440]); (445, [444]); (447, [503]); (453, [452]); (454, [452]);
  (456, [455]); (457, [455]); (459, [458]); (460, [458]); (462, [461]);
  (464, [463]); (466, [465]); (468, [467]); (470, [469]); (472, [471]);
  (474, [473]); (476, [475]); (477, [398]); (479, [478]); (481, [480]);
  (483, [482]); (485, [484]); (487, [486]); (489, [488]); (491, [490]);
  (493, [492]); (495, [494]); (496, [74; 780]); (498, [497]); (499, [497]);
  (501, [500]); (505, [504]); (507, [506]); (509, [508]); (511, [510]);
  (513, [512]); (515, [514]); (517, [516]); (519, [518]); (521, [520]);
  (523, [522]); (525, [524]); (527, [526]); (529, [528]); (531, [530]);
  (533, [532]); (535, [534]); (537, [536]); (539, [538]); (541, [540]);
  (543, [542]); (547, [546]); (549, [548]); (551, [550]); (553, [552]);
  (555, [554]); (557, [556]); (559, [558]); (561, [560]); (563, [562]);
  (572, [571]); (575, [11390]); (576, [11391]); (578, [577]); (583, [582]);
  (585, [584]); (587, [586]); (589, [588]); (591, [590]); (592, [11375]);
  (593, [11373]); (594, [11376]); (595, [385]); (596, [390]); (598, [393]);
  (599, [394]); (601, [399]); (603, [400]); (604, [42923]); (608, [403]);
  (609, [42924]); (611, [404]); (613, [42893]); (614, [42922]); (616, [407]);
  (617, [406]); (618, [42926]); (619, [11362]); (620, [42925]); (623, [412]);
  (625, [11374]); (626, [413]); (629, [415]); (637, [11364]); (640, [422]);
  (642, [42949]); (643, [425]); (647, [42929]); (648, [430]); (649, [580]);
  (650, [433]); (651, [434]); (652, [581]); (658, [439]); (669, [42930]);
  (670, [42928]); (837, [921]); (881, [880]); (883, [882]); (887, [886]);
  (891, [1021]); (892, [1022]); (893, [1023]); (912, [921; 776; 769]);
  (940, [902]); (941, [904]); (942, [905]); (943, [906]);
  (944, [933; 776; 769]); (945, [913]); (946, [914]); (947, [915]);
  (948, [916]); (949, [917]); (950, [918]); (951, [919]); (952, [920]);
  (953, [921]); (954, [922]); (955, [923]); (956, [924]); (957, [925]);
  (958, [926]); (959, [927]); (960, [928]); (961, [929]); (962, [931]);
  (963, [931]); (964, [932]); (965, [933]); (966, [934]); (967, [935]);
  (968, [936]); (969, [937]); (970, [938]); (971, [939]); (972, [908]);
  (973, [910]); (974, [911]); (976, [914]); (977, [920]); (981, [934]);
  (982, [928]); (983, [975]); (985, [984]); (987, [986]); (989, [988]);
  (991, [990]); (993, [992]); (995, [994]); (997, [996]); (999, [998]);
  (1001, [1000]); (1003, [1002]); (1005, [1004]); (1007, [1006]);
  (1008, [922]); (1009, [929]); (1010, [1017]); (1011, [895]); (1013, [917]);
  (1016, [1015]); (1019, [1018]); (1072, [1040]); (1073, [1041]);
  (1074, [1042]); (1075, [1043]); (1076, [1044]); (1077, [1045]);
  (1078, [1046]); (1079, [1047]); (1080, [1048]); (1081, [1049]);
  (1082, [1050]); (1083, [1051]); (1084, [1052]); (1085, [1053]);
  (1086, [1054]); (1087, [1055]); (1088, [1056]); (1089, [1057]);
  (1090, [1058]); (1091, [1059]); (1092, [1060]); (1093, [1061]);
  (1094, [1062]); (1095, [1063]); (1096, [1064]); (1097, [1065]);
  (1098, [1066]); (1099, [1067]); (1100, [1068]); (1101, [1069]);
  (1102, [1070]); (1103, [1071]); (1104, [1024]); (1105, [1025]);
  (1106, [1026]); (1107, [1027]); (1108, [1028]); (1109, [1029]);
  (1110, [1030]); (1111, [1031]); (1112, [1032]); (1113, [1033]);
  (1114, [1034]); (1115, [1035]); (1116, [1036]); (1117, [1037]);
  (1118, [1038]); (1119, [1039]); (1121, [1120]); (1123, [1122]);
  (1125, [1124]); (1127, [1126]); (1129, [1128]); (1131, [1130]);
  (1133, [1132]); (1135, [1134]); (1137, [1136]); (1139, [1138]);
  (1141, [1140]); (1143, [1142]); (1145, [1144]); (1147, [1146]);
  (1149, [1148]); (1151, [1150]); (1153, [1152]); (1163, [1162]);
  (1165, [1164]); (1167, [1166]); (1169, [1168]); (1171, [1170]);
  (1173, [1172]); (1175, [1174]); (1177, [1176]); (1179, [1178]);
  (1181, [1180]); (1183, [1182]); (1185, [1184]); (1187, [1186]);
  (1189, [1188]); (1191, [1190]); (1193, [1192]); (1195, [1194]);
  (1197, [1196]); (1199, [1198]); (1201, [1200]); (1203, [1202]);
  (1205, [1204]); (1207, [1206]); (1209, [1208]); (1211, [1210]);
  (1213, [1212]); (1215, [1214]); (1218, [1217]); (1220, [1219]);
  (1222, [1221]); (1224, [1223]); (1226, [1225]); (1228, [1227]);
  (1230, [1229]); (1231, [1216]); (1233, [1232]); (1235, [1234]);
  (1237, [1236]); (1239, [1238]); (1241, [1240]); (1243, [1242]);
  (1245, [1244]); (1247, [1246]); (1249, [1248]); (1251, [1250]);
  (1253, [1252]); (1255, [1254]); (1257, [1256]); (1259, [1258]);
  (1261, [1260]); (1263, [1262]); (1265, [1264]); (1267, [1266]);
  (1269, [1268]); (1271, [1270]); (1273, [1272]); (1275, [1274]);
  (1277, [1276]); (1279, [1278]); (1281, [1280]); (1283, [1282]);
  (1285, [1284]); (1287, [1286]); (1289, [1288]); (1291, [1290]);
  (1293, [1292]); (1295, [1294]); (1297, [1296]); (1299, [1298]);
  (1301, [1300]); (1303, [1302]); (1305, [1304]); (1307, [1306]);
  (1309, [1308]); (1311, [1310]); (1313, [1312]); (1315, [1314]);
  (1317, [1316]); (1319, [1318]); (1321, [1320]); (1323, [1322]);
  (1325, [1324]); (1327, [1326]); (1377, [1329]); (1378, [1330]);
  (1379, [1331]); (1380, [1332]); (1381, [1333]); (1382, [1334]);
  (1383, [1335]); (1384, [1336]); (1385, [1337]); (1386, [1338]);
  (1387, [1339]); (1388, [1340]); (1389, [1341]); (1390, [1342]);
  (1391, [1343]); (1392, [1344]); (1393, [1345]); (1394, [1346]);
  (1395, [1347]); (1396, [1348]); (1397, [1349]); (1398, [1350]);
  (1399, [1351]); (1400, [1352]); (1401, [1353]); (1402, [1354]);
  (1403, [1355]); (1404, [1356]); (1405, [1357]); (1406, [1358]);
  (1407, [1359]); (1408, [1360]); (1409, [1361]); (1410, [1362]);
  (1411, [1363]); (1412, [1364]); (1413, [1365]); (1414, [1366]);
  (1415, [1333; 1362]); (4304, [7312]); (4305, [7313]); (4306, [7314]);
  (4307, [7315]); (4308, [7316]); (4309, [7317]); (4310, [7318]);
  (4311, [7319]); (4312, [7320]); (4313, [7321]); (4314, [7322]);
  (4315, [7323]); (4316, [7324]); (4317, [7325]); (4318, [7326]);
  (4319, [7327]); (4320, [7328]); (4321, [7329]); (4322, [7330]);
  (4323, [7331]); (4324, [7332]); (4325, [7333]); (4326, [7334]);
  (4327, [7335]); (4328, [7336]); (4329, [7337]); (4330, [7338]);
  (4331, [7339]); (4332, [7340]); (4333, [7341]); (4334, [7342]);
  (4335, [7343]); (4336, [7344]); (4337, [7345]); (4338, [7346]);
  (4339, [7347]); (4340, [7348]); (4341, [7349]); (4342, [7350]);
  (4343, [7351]); (4344, [7352]); (4345, [7353]); (4346, [7354]);
  (4349, [7357]); (4350, [7358]); (4351, [7359]); (5112, [5104]);
  (5113, [5105]); (5114, [5106]); (5115, [5107]); (5116, [5108]);
  (5117, [5109]); (7296, [1042]); (7297, [1044]); (7298, [1054]);
  (7299, [1057]); (7300, [1058]); (7301, [1058]); (7302, [1066]);
  (7303, [1122]); (7304, [42570]); (7545, [42877]); (7549, [11363]);
  (7566, [42950]); (7681, [7680]); (7683, [7682]); (7685, [7684]);
  (7687, [7686]); (7689, [7688]); (7691, [7690]); (7693, [7692]);
  (7695, [7694]); (7697, [7696]); (7699, [7698]); (7701, [7700]);
  (7703, [7702]); (7705, [7704]); (7707, [7706]); (7709, [7708]);
  (7711, [7710]); (7713, [7712]); (7715, [7714]); (7717, [7716]);
  (7719, [7718]); (7721, [7720]); (7723, [7722]); (7725, [7724]);
  (7727, [7726]); (7729, [7728]); (7731, [7730]); (7733, [7732]);
  (7735, [7734]); (7737, [7736]); (7739, [7738]); (7741, [7740]);
  (7743, [7742]); (7745, [7744]); (7747, [7746]); (7749, [7748]);
  (7751, [7750]); (7753, [7752]); (7755, [7754]); (7757, [7756]);
  (7759, [7758]); (7761, [7760]); (7763, [7762]); (7765, [7764]);
  (7767, [7766]); (7769, [7768]); (7771, [7770]); (7773, [7772]);
  (7775, [7774]); (7777, [7776]); (7779, [7778]); (7781, [7780]);
  (7783, [7782]); (7785, [7784]); (7787, [7786]); (7789, [7788]);
  (7791, [7790]); (7793, [7792]); (7795, [7794]); (7797, [7796]);
  (7799, [7798]); (7801, [7800]); (7803, [7802]); (7805, [7804]);
  (7807, [7806]); (7809, [7808]); (7811, [7810]); (7813, [7812]);
  (7815, [7814]); (7817, [7816]); (7819, [7818]); (7821, [7820]);
  (7823, [7822]); (7825, [7824]); (7827, [7826]); (7829, [7828]);
  (7830, [72; 817]); (7831, [84; 776]); (7832, [87; 778]); (7833, [89; 778]);
  (7834, [65; 702]); (7835, [7776]); (7841, [7840]); (7843, [7842]);
  (7845, [7844]); (7847, [7846]); (7849, [7848]); (7851, [7850]);
  (7853, [7852]); (7855, [7854]); (7857, [7856]); (7859, [7858]);
  (7861, [7860]); (7863, [7862]); (7865, [7864]); (7867, [7866]);
  (7869, [7868]); (7871, [7870]); (7873, [7872]); (7875, [7874]);
  (7877, [7876]); (7879, [7878]); (7881, [7880]); (7883, [7882]);
  (7885, [7884]); (7887, [7886]); (7889, [7888]); (7891, [7890]);
  (7893, [7892]); (7895, [7894]); (7897, [7896]); (7899, [7898]);
  (7901, [7900]); (7903, [7902]); (7905, [7904]); (7907, [7906]);
  (7909, [7908]); (7911, [7910]); (7913, [7912]); (7915, [7914]);
  (7917, [7916]); (7919, [7918]); (7921, [7920]); (7923, [7922]);
  (7925, [7924]); (7927, [7926]); (7929, [7928]); (7931, [7930]);
  (7933, [7932]); (7935, [7934]); (7936, [7944]); (7937, [7945]);
  (7938, [7946]); (7939, [7947]); (7940, [7948]); (7941, [7949]);
  (7942, [7950]); (7943, [7951]); (7952, [7960]); (7953, [7961]);
  (7954, [7962]); (7955, [7963]); (7956, [7964]); (7957, [7965]);
  (7968, [7976]); (7969, [7977]); (7970, [7978]); (7971, [7979]);
  (7972, [7980]); (7973, [7981]); (7974, [7982]); (7975, [7983]);
  (7984, [7992]); (7985, [7993]); (7986, [7994]); (7987, [7995]);
  (7988, [7996]); (7989, [7997]); (7990, [7998]); (7991, [7999]);
  (8000, [8008]); (8001, [8009]); (8002, [8010]); (8003, [8011]);
  (8004, [8012]); (8005, [8013]); (8016, [933; 787]); (8017, [8025]);
  (8018, [933; 787; 768]); (8019, [8027]); (8020, [933; 787; 769]);
  (8021, [8029]); (8022, [933; 787; 834]); (8023, [8031]); (8032, [8040]);
  (8033, [8041]); (8034, [8042]); (8035, [8043]); (8036, [8044]);
  (8037, [8045]); (8038, [8046]); (8039, [8047]); (8048, [8122]);
  (8049, [8123]); (8050, [8136]); (8051, [8137]); (8052, [8138]);
  (8053, [8139]); (8054, [8154]); (8055, [8155]); (8056, [8184]);
  (8057, [8185]); (8058, [8170]); (8059, [8171]); (8060, [8186]);
  (8061, [8187]); (8064, [7944; 921]); (8065, [7945; 921]);
  (8066, [7946; 921]); (8067, [7947; 921]); (8068, [7948; 921]);
  (8069, [7949; 921]); (8070, [7950; 921]); (8071, [7951; 921]);
  (8072, [7944; 921]); (8073, [7945; 921]); (8074, [7946; 921]);
  (8075, [7947; 921]); (8076, [7948; 921]); (8077, [7949; 921]);
  (8078, [7950; 921]); (8079, [7951; 921]); (8080, [7976; 921]);
  (8081, [7977; 921]); (8082, [7978; 921]); (8083, [7979; 921]);
  (8084, [7980; 921]); (8085, [7981; 921]); (8086, [7982; 921]);
  (8087, [7983; 921]); (8088, [7976; 921]); (8089, [7977; 921]);
  (8090, [7978; 921]); (8091, [7979; 921]); (8092, [7980; 921]);
  (8093, [7981; 921]); (8094, [7982; 921]); (8095, [7983; 921]);
  (8096, [8040; 921]); (8097, [8041; 921]); (8098, [8042; 921]);
  (8099, [8043; 921]); (8100, [8044; 921]); (8101, [8045; 921]);
  (8102, [8046; 921]); (8103, [8047; 921]); (8104, [8040; 921]);
  (8105, [8041; 921]); (8106, [8042; 921]); (8107, [8043; 921]);
  (8108, [8044; 921]); (8109, [8045; 921]); (8110, [8046; 921]);
  (8111, [8047; 921]); (8112, [8120]); (8113, [8121]); (8114, [8122; 921]);
  (8115, [913; 921]); (8116, [902; 921]); (8118, [913; 834]);
  (8119, [913; 834; 921]); (8124, [913; 921]); (8126, [921]);
  (8130, [8138; 921]); (8131, [919; 921]); (8132, [905; 921]);
  (8134, [919; 834]); (8135, [919; 834; 921]); (8140, [919; 921]);
  (8144, [8152]); (8145, [8153]); (8146, [921; 776; 768]);
  (8147, [921; 776; 769]); (8150, [921; 834]); (8151, [921; 776; 834]);
  (8160, [8168]); (8161, [8169]); (8162, [933; 776; 768]);
  (8163, [933; 776; 769]); (8164, [929; 787]); (8165, [8172]);
  (8166, [933; 834]); (8167, [933; 776; 834]); (8178, [8186; 921]);
  (8179, [937; 921]); (8180, [911; 921]); (8182, [937; 834]);
  (8183, [937; 834; 921]); (8188, [937; 921]); (8526, [8498]);
  (8560, [8544]); (8561, [8545]); (8562, [8546]); (8563, [8547]);
  (8564, [8548]); (8565, [8549]); (8566, [8550]); (8567, [8551]);
  (8568, [8552]); (8569, [8553]); (8570, [8554]); (8571, [8555]);
  (8572, [8556]); (8573, [8557]); (8574, [8558]); (8575, [8559]);
  (8580, [8579]); (9424, [9398]); (9425, [9399]); (9426, [9400]);
  (9427, [9401]); (9428, [9402]); (9429, [9403]); (9430, [9404]);
  (9431, [9405]); (9432, [9406]); (9433, [9407]); (9434, [9408]);
  (9435, [9409]); (9436, [9410]); (9437, [9411]); (9438, [9412]);
  (9439, [9413]); (9440, [9414]); (9441, [9415]); (9442, [9416]);
  (9443, [9417]); (9444, [9418]); (9445, [9419]); (9446, [9420]);
  (9447, [9421]); (9448, [9422]); (9449, [9423]); (11312, [11264]);
  (11313, [11265]); (11314, [11266]); (11315, [11267]); (11316, [11268]);
  (11317, [11269]); (11318, [11270]); (11319, [11271]); (11320, [11272]);
  (11321, [11273]); (11322, [11274]); (11323, [11275]); (11324, [11276]);
  (11325, [11277]); (11326, [11278]); (11327, [11279]); (11328, [11280]);
  (11329, [11281]); (11330, [11282]); (11331, [11283]); (11332, [11284]);
  (11333, [11285]); (11334, [11286]); (11335, [11287]); (11336, [11288]);
  (11337, [11289]); (11338, [11290]); (11339, [11291]); (11340, [11292]);
  (11341, [11293]); (11342, [11294]); (11343, [11295]); (11344, [11296]);
  (11345, [11297]); (11346, [11298]); (11347, [11299]); (11348, [11300]);
  (11349, [11301]); (11350, [11302]); (11351, [11303]); (11352, [11304]);
  (11353, [11305]); (11354, [11306]); (11355, [11307]); (11356, [11308]);
  (11357, [11309]); (11358, [11310]); (11359, [11311]); (11361, [11360]);
  (11365, [570]); (11366, [574]); (11368, [11367]); (11370, [11369]);
  (11372, [11371]); (11379, [11378]); (11382, [11381]); (11393, [11392]);
  (11395, [11394]); (11397, [11396]); (11399, [11398]); (11401, [11400]);
  (11403, [11402]); (11405, [11404]); (11407, [11406]); (11409, [11408]);
  (11411, [11410]); (11413, [11412]); (11415, [11414]); (11417, [11416]);
  (11419, [11418]); (11421, [11420]); (11423, [11422]); (11425, [11424]);
  (11427, [11426]); (11429, [11428]); (11431, [11430]); (11433, [11432]);
  (11435, [11434]); (11437, [11436]); (11439, [11438]); (11441, [11440]);
  (11443, [11442]); (11445, [11444]); (11447, [11446]); (11449, [11448]);
  (11451, [11450]); (11453, [11452]); (11455, [11454]); (11457, [11456]);
  (11459, [11458]); (11461, [11460]); (11463, [11462]); (11465, [11464]);
  (11467, [11466]); (11469, [11468]); (11471, [11470]); (11473, [11472]);
  (11475, [11474]); (11477, [11476]); (11479, [11478]); (11481, [11480]);
  (11483, [11482]); (11485, [11484]); (11487, [11486]); (11489, [11488]);
  (11491, [11490]); (11500, [11499]); (11502, [11501]); (11507, [11506]);
  (11520, [4256]); (11521, [4257]); (11522, [4258]); (11523, [4259]);
  (11524, [4260]); (11525, [4261]); (11526, [4262]); (11527, [4263]);
  (11528, [4264]); (11529, [4265]); (11530, [4266]); (11531, [4267]);
  (11532, [4268]); (11533, [4269]); (11534, [4270]); (11535, [4271]);
  (11536, [4272]); (11537, [4273]); (11538, [4274]); (11539, [4275]);
  (11540, [4276]); (11541, [4277]); (11542, [4278]); (11543, [4279]);
  (11544, [4280]); (11545, [4281]); (11546, [4282]); (11547, [4283]);
  (11548, [4284]); (11549, [4285]); (11550, [4286]); (11551, [4287]);
  (11552, [4288]); (11553, [4289]); (11554, [4290]); (11555, [4291]);
  (11556, [4292]); (11557, [4293]); (11559, [4295]); (11565, [4301]);
  (42561, [42560]); (42563, [42562]); (42565, [42564]); (42567, [42566]);
  (42569, [42568]); (42571, [42570]); (42573, [42572]); (42575, [42574]);
  (42577, [42576]); (42579, [42578]); (42581, [42580]); (42583, [42582]);
  (42585, [42584]); (42587, [42586]); (42589, [42588]); (42591, [42590]);
  (42593, [42592]); (42595, [42594]); (42597, [42596]); (42599, [42598]);
  (42601, [42600]); (42603, [42602]); (42605, [42604]); (42625, [42624]);
  (42627, [42626]); (42629, [42628]); (42631, [42630]); (42633, [42632]);
  (42635, [42634]); (42637, [42636]); (42639, [42638]); (42641, [42640]);
  (42643, [42642]); (42645, [42644]); (42647, [42646]); (42649, [42648]);
  (42651, [42650]); (42787, [42786]); (42789, [42788]); (42791, [42790]);
  (42793, [42792]); (42795, [42794]); (42797, [42796]); (42799, [42798]);
  (42803, [42802]); (42805, [42804]); (42807, [42806]); (42809, [42808]);
  (42811, [42810]); (42813, [42812]); (42815, [42814]); (42817, [42816]);
  (42819, [42818]); (42821, [42820]); (42823, [42822]); (42825, [42824]);
  (42827, [42826]); (42829, [42828]); (42831, [42830]); (42833, [42832]);
  (42835, [42834]); (42837, [42836]); (42839, [42838]); (42841, [42840]);
  (42843, [42842]); (42845, [42844]); (42847, [42846]); (42849, [42848]);
  (42851, [42850]); (42853, [42852]); (42855, [42854]); (42857, [42856]);
  (42859, [42858]); (42861, [42860]); (42863, [42862]); (42874, [42873]);
  (42876, [42875]); (42879, [42878]); (42881, [42880]); (42883, [42882]);
  (42885, [42884]); (42887, [42886]); (42892, [42891]); (42897, [42896]);
  (42899, [42898]); (42900, [42948]); (42903, [42902]); (42905, [42904]);
  (42907, [42906]); (42909, [42908]); (42911, [42910]); (42913, [42912]);
  (42915, [42914]); (42917, [42916]); (42919, [42918]); (42921, [42920]);
  (42933, [42932]); (42935, [42934]); (42937, [42936]); (42939, [42938]);
  (42941, [42940]); (42943, [42942]); (42945, [42944]); (42947, [42946]);
  (42952, [42951]); (42954, [42953]); (42961, [42960]); (42967, [42966]);
  (42969, [42968]); (42998, [42997]); (43859, [42931]); (43888, [5024]);
  (43889, [5025]); (43890, [5026]); (43891, [5027]); (43892, [5028]);
  (43893, [5029]); (43894, [5030]); (43895, [5031]); (43896, [5032]);
  (43897, [5033]); (43898, [5034]); (43899, [5035]); (43900, [5036]);
  (43901, [5037]); (43902, [5038]); (43903, [5039]); (43904, [5040]);
  (43905, [5041]); (43906, [5042]); (43907, [5043]); (43908, [5044]);
  (43909, [5045]); (43910, [5046]); (43911, [5047]); (43912, [5048]);
  (43913, [5049]); (43914, [5050]); (43915, [5051]); (43916, [5052]);
  (43917, [5053]); (43918, [5054]); (43919, [5055]); (43920, [5056]);
  (43921, [5057]); (43922, [5058]); (43923, [5059]); (43924, [5060]);
  (43925, [5061]); (43926, [5062]); (43927, [5063]); (43928, [5064]);
  (43929, [5065]); (43930, [5066]); (43931, [5067]); (43932, [5068]);
  (43933, [5069]); (43934, [5070]); (43935, [5071]); (43936, [5072]);
  (43937, [5073]); (43938, [5074]); (43939, [5075]); (43940, [5076]);
  (43941, [5077]); (43942, [5078]); (43943, [5079]); (43944, [5080]);
  (43945, [5081]); (43946, [5082]); (43947, [5083]); (43948, [5084]);
  (43949, [5085]); (43950, [5086]); (43951, [5087]); (43952, [5088]);
  (43953, [5089]); (43954, [5090]); (43955, [5091]); (43956, [5092]);
  (43957, [5093]); (43958, [5094]); (43959, [5095]); (43960, [5096]);
  (43961, [5097]); (43962, [5098]); (43963, [5099]); (43964, [5100]);
  (43965, [5101]); (43966, [5102]); (43967, [5103]); (64256, [70; 70]);
  (64257, [70; 73]); (64258, [70; 76]); (64259, [70; 70; 73]);
  (64260, [70; 70; 76]); (64261, [83; 84]); (64262, [83; 84]);
  (64275, [1348; 1350]); (64276, [1348; 1333]); (64277, [1348; 1339]);
  (64278, [1358; 1350]); (64279, [1348; 1341]); (65345, [65313]);
  (65346, [65314]); (65347, [65315]); (65348, [65316]); (65349, [65317]);
  (65350, [65318]); (65351, [65319]); (65352, [65320]); (65353, [65321]);
  (65354, [65322]); (65355, [65323]); (65356, [65324]); (65357, [65325]);
  (65358, [65326]); (65359, [65327]); (65360, [65328]); (65361, [65329]);
  (65362, [65330]); (65363, [65331]); (65364, [65332]); (65365, [65333]);
  (65366, [65334]); (65367, [65335]); (65368, [65336]); (65369, [65337]);
  (65370, [65338]); (66600, [66560]); (66601, [66561]); (66602, [66562]);
  (66603, [66563]); (66604, [66564]); (66605, [66565]); (66606, [66566]);
  (66607, [66567]); (66608, [66568]); (66609, [66569]); (66610, [66570]);
  (66611, [66571]); (66612, [66572]); (66613, [66573]); (66614, [66574]);
  (66615, [66575]); (66616, [66576]); (66617, [66577]); (66618, [66578]);
  (66619, [66579]); (66620, [66580]); (66621, [66581]); (66622, [66582]);
  (66623, [66583]); (66624, [66584]); (66625, [66585]); (66626, [66586]);
  (66627, [66587]); (66628, [66588]); (66629, [66589]); (66630, [66590]);
  (66631, [66591]); (66632, [66592]); (66633, [66593]); (66634, [66594]);
  (66635, [66595]); (66636, [66596]); (66637, [66597]); (66638, [66598]);
  (66639, [66599]); (66776, [66736]); (66777, [66737]); (66778, [66738]);
  (66779, [66739]); (66780, [66740]); (66781, [66741]); (66782, [66742]);
  (66783, [66743]); (66784, [66744]); (66785, [66745]); (66786, [66746]);
  (66787, [66747]); (66788, [66748]); (66789, [66749]); (66790, [66750]);
  (66791, [66751]); (66792, [66752]); (66793, [66753]); (66794, [66754]);
  (66795, [66755]); (66796, [66756]); (66797, [66757]); (66798, [66758]);
  (66799, [66759]); (66800, [66760]); (66801, [66761]); (66802, [66762]);
  (66803, [66763]); (66804, [66764]); (66805, [66765]); (66806, [66766]);
  (66807, [66767]); (66808, [66768]); (66809, [66769]); (66810, [66770]);
  (66811, [66771]); (66967, [66928]); (66968, [66929]); (66969, [66930]);
  (66970, [66931]); (66971, [66932]); (66972, [66933]); (66973, [66934]);
  (66974, [66935]); (66975, [66936]); (66976, [66937]); (66977, [66938]);
  (66979, [66940]); (66980, [66941]); (66981, [66942]); (66982, [66943]);
  (66983, [66944]); (66984, [66945]); (66985, [66946]); (66986, [66947]);
  (66987, [66948]); (66988, [66949]); (66989, [66950]); (66990, [66951]);
  (66991, [66952]); (66992, [66953]); (66993, [66954]); (66995, [66956]);
  (66996, [66957]); (66997, [66958]); (66998, [66959]); (66999, [66960]);
  (67000, [66961]); (67001, [66962]); (67003, [66964]); (67004, [66965]);
  (68800, [68736]); (68801, [68737]); (68802, [68738]); (68803, [68739]);
  (68804, [68740]); (68805, [68741]); (68806, [68742]); (68807, [68743]);
  (68808, [68744]); (68809, [68745]); (68810, [68746]); (68811, [68747]);
  (68812, [68748]); (68813, [68749]); (68814, [68750]); (68815, [68751]);
  (68816, [68752]); (68817, [68753]); (68818, [68754]); (68819, [68755]);
  (68820, [68756]); (68821, [68757]); (68822, [68758]); (68823, [68759]);
  (68824, [68760]); (68825, [68761]); (68826, [68762]); (68827, [68763]);
  (68828, [68764]); (68829, [68765]); (68830, [68766]); (68831, [68767]);
  (68832, [68768]); (68833, [68769]); (68834, [68770]); (68835, [68771]);
  (68836, [68772]); (68837, [68773]); (68838, [68774]); (68839, [68775]);
  (68840, [68776]); (68841, [68777]); (68842, [68778]); (68843, [68779]);
  (68844, [68780]); (68845, [68781]); (68846, [68782]); (68847, [68783]);
  (68848, [68784]); (68849, [68785]); (68850, [68786]); (71872, [71840]);
  (71873, [71841]); (71874, [71842]); (71875, [71843]); (71876, [71844]);
  (71877, [71845]); (71878, [71846]); (71879, [71847]); (71880, [71848]);
  (71881, [71849]); (71882, [71850]); (71883, [71851]); (71884, [71852]);
  (71885, [71853]); (71886, [71854]); (71887, [71855]); (71888, [71856]);
  (71889, [71857]); (71890, [71858]); (71891, [71859]); (71892, [71860]);
  (71893, [71861]); (71894, [71862]); (71895, [71863]); (71896, [71864]);
  (71897, [71865]); (71898, [71866]); (71899, [71867]); (71900, [71868]);
  (71901, [71869]); (71902, [71870]); (71903, [71871]); (93792, [93760]);
  (93793, [93761]); (93794, [93762]); (93795, [93763]); (93796, [93764]);
  (93797, [93765]); (93798, [93766]); (93799, [93767]); (93800, [93768]);
  (93801, [93769]); (93802, [93770]); (93803, [93771]); (93804, [93772]);
  (93805, [93773]); (93806, [93774]); (93807, [93775]); (93808, [93776]);
  (93809, [93777]); (93810, [93778]); (93811, [93779]); (93812, [93780]);
  (93813, [93781]); (93814, [93782]); (93815, [93783]); (93816, [93784]);
  (93817, [93785]); (93818, [93786]); (93819, [93787]); (93820, [93788]);
  (93821, [93789]); (93822, [93790]); (93823, [93791]); (125218, [125184]);
  (125219, [125185]); (125220, [125186]); (125221, [125187]);
  (125222, [125188]); (125223, [125189]); (125224, [125190]);
  (125225, [125191]); (125226, [125192]); (125227, [125193]);
  (125228, [125194]); (125229, [125195]); (125230, [125196]);
  (125231, [125197]); (125232, [125198]); (125233, [125199]);
  (125234, [125200]); (125235, [125201]); (125236, [125202]);
  (125237, [125203]); (125238, [125204]); (125239, [125205]);
  (125240, [125206]); (125241, [125207]); (125242, [125208]);
  (125243, [125209]); (125244, [125210]); (125245, [125211]);
  (125246, [125212]); (125247, [125213]); (125248, [125214]);
  (125249, [125215]); (125250, [125216]); (125251, [125217])
  ]%N.

Fixpoint assoc_cp (cp : N) (table : list (N * list N)) : option (list N) :=
  match table with
  | [] => None
  | (k, v) :: table' => if (k =? cp)%N then Some v else assoc_cp cp table'
  end.

(** The upper-case of the character with code point [cp] (not ASCII). *)
Definition upper_cp (cp : N) : list N :=
  match assoc_cp cp upper_table with
  | Some v => v
  | None => [cp]
  end.

(** A [str] is held as its UTF-8 bytes. *)
Definition utf8_encode_cp (cp : N) : string :=
  if (cp <? 128)%N then String (ascii_of_N cp) EmptyString
  else if (cp <? 2048)%N then
    String (ascii_of_N (192 + cp / 64))
      (String (ascii_of_N (128 + cp mod 64)) EmptyString)
  else if (cp <? 65536)%N then
    String (ascii_of_N (224 + cp / 4096))
      (String (ascii_of_N (128 + (cp / 64) mod 64))
         (String (ascii_of_N (128 + cp mod 64)) EmptyString))
  else
    String (ascii_of_N (240 + cp / 262144))
      (String (ascii_of_N (128 + (cp / 4096) mod 64))
         (String (ascii_of_N (128 + (cp / 64) mod 64))
            (String (ascii_of_N (128 + cp mod 64)) EmptyString))).

Fixpoint utf8_encode (cps : list N) : string :=
  match cps with
  | [] => EmptyString
  | cp :: cps' => (utf8_encode_cp cp ++ utf8_encode cps')%string
  end.

(** A continuation byte of a UTF-8 sequence, and its six bits. *)
Definition is_cont (b : ascii) : bool :=
  (128 <=? N_of_ascii b)%N && (N_of_ascii b <? 192)%N.

Definition cont (b : ascii) : N := (N_of_ascii b - 128)%N.

(** [s.upper()]: character by character over the UTF-8 text. A byte
    that starts no well-formed sequence, which the text of a [str] does
    not have, is left as it is. *)
Fixpoint upper (s : string) : string :=
  match s with
  | EmptyString => EmptyString
  | String b0 s1 =>
      let n0 := N_of_ascii b0 in
      if (n0 <? 128)%N then String (upper_char b0) (upper s1)
      else
        match s1 with
        | EmptyString => String b0 EmptyString
        | String b1 s2 =>
            if (n0 <? 224)%N then
              if (192 <=? n0)%N && is_cont b1 then
                (utf8_encode (upper_cp ((n0 - 192) * 64 + cont b1))
                 ++ upper s2)%string
              else String b0 (upper s1)
            else
              match s2 with
              | EmptyString => String b0 (upper s1)
              | String b2 s3 =>
                  if (n0 <? 240)%N then
                    if is_cont b1 && is_cont b2 then
                      (utf8_encode
                         (upper_cp ((n0 - 224) * 4096 + cont b1 * 64 + cont b2))
                       ++ upper s3)%string
                    else String b0 (upper s1)
                  else
                    match s3 with
                    | EmptyString => String b0 (upper s1)
                    | String b3 s4 =>
                        if is_cont b1 && is_cont b2 && is_cont b3 then
                          (utf8_encode
                             (upper_cp ((n0 - 240) * 262144 + cont b1 * 4096
                                        + cont b2 * 64 + cont b3))
                           ++ upper s4)%string
                        else String b0 (upper s1)
                    end
              end
        end
  end.

End PyStr.

(** ** Python dicts: insertion-ordered, keyed by [str] *)

Module PyDict.

Section Dict.
Context {V : Type}.

Definition dict : Type := list (string * V).

Definition empty : dict := [].

Fixpoint lookup (d : dict) (k : string) : option V :=
  match d with
  | [] => None
  | (k', v) :: d' => if String.eqb k' k then Some v else lookup d' k
  end.

(** [d.get(k, default)]. *)
Definition get (d : dict) (k : string) (default : V) : V :=
  match lookup d k with
  | Some v => v
  | None => default
  end.

(** [d[k] = v]: an existing key keeps its position, a new key goes
    to the end. *)
Fixpoint set (d : dict) (k : string) (v : V) : dict :=
  match d with
  | [] => [(k, v)]
  | (k', v') :: d' =>
      if String.eqb k' k then (k', v) :: d' else (k', v') :: set d' k v
  end.

(** [d.items()]. *)
Definition items (d : dict) : list (string * V) := d.

Definition keys (d : dict) : list string := map fst d.

(** Keys of a dict are distinct. *)
Definition wf (d : dict) : Prop := NoDup (keys d).

(** [d1 == d2]: the same keys with the same values, in any order. *)
Definition equiv (d1 d2 : dict) : Prop :=
  forall k, lookup d1 k = lookup d2 k.
End Dict.

Arguments dict V : clear implicits.

End PyDict.

(** ** The ledger *)

Record transaction : Type := {
  tx_date : option string;
  tx_ticker : option string;
  tx_type : option string;
  tx_shares : option Z;
  tx_priceCents : option Z
}.

Record config : Type := {
  startingCashCents : option Z;
  transactions : option (list transaction)
}.

Definition holdings_t : Type := PyDict.dict Z.

(** [x or (the empty string)] and [tx.get(key, 0)]. *)
Definition or_empty (x : option string) : string :=
  match x with
  | Some s => s
  | None => EmptyString
  end.

Definition get_or {A : Type} (x : option A) (default : A) : A :=
  match x with
  | Some a => a
  | None => default
  end.

Definition cut_off_of (as_of_date_str : option string) : string :=
  match as_of_date_str with
  | None => "9999-12-31"%string
  | Some s => s
  end.

(** The guard [tx_date and tx_date > cut_off]. *)
Definition after_cut_off (cut_off : string) (tx : transaction) : bool :=
  match tx_date tx with
  | Some tx_date => PyStr.truthy tx_date && PyStr.gtb tx_date cut_off
  | None => false
  end.

(** The guard [not ticker or shares <= 0 or price_cents < 0]. *)
Definition malformed (tx : transaction) : bool :=
  negb (PyStr.truthy (or_empty (tx_ticker tx)))
  || (get_or (tx_shares tx) 0 <=? 0)
  || (get_or (tx_priceCents tx) 0 <? 0).

(** The loop body below the date guard. *)
Definition apply_tx (st : holdings_t * Z) (tx : transaction) : holdings_t * Z :=
  let '(holdings, cash) := st in
  let ttype := PyStr.upper (or_empty (tx_type tx)) in
  let ticker := or_empty (tx_ticker tx) in
  let shares := get_or (tx_shares tx) 0 in
  let price_cents := get_or (tx_priceCents tx) 0 in
  if malformed tx then st
  else
    let amount := shares * price_cents in
    if String.eqb ttype "BUY" then
      (PyDict.set holdings ticker (PyDict.get holdings ticker 0 + shares),
       cash - amount)
    else if String.eqb ttype "SELL" then
      (PyDict.set holdings ticker (PyDict.get holdings ticker 0 - shares),
       cash + amount)
    else st.

(** One iteration of the loop over [transactions]. *)
Definition replay_step (cut_off : string) (st : holdings_t * Z)
    (tx : transaction) : holdings_t * Z :=
  if after_cut_off cut_off tx then st else apply_tx st tx.

Definition replay_from (cut_off : string) (st : holdings_t * Z)
    (txs : list transaction) : holdings_t * Z :=
  fold_left (replay_step cut_off) txs st.

Definition compute_holdings_and_cash (cfg : config)
    (as_of_date_str : option string) : holdings_t * Z :=
  let transactions := get_or (transactions cfg) [] in
  let cash := get_or (startingCashCents cfg) 0 in
  replay_from (cut_off_of as_of_date_str) (PyDict.empty, cash) transactions.

(** ** Weights and rebalance trims *)

Definition prices_t : Type := PyDict.dict Z.
Definition weights_t : Type := PyDict.dict PyFloat.float.

Record trade : Type := {
  tr_ticker : string;
  tr_type : string;
  tr_shares : Z;
  tr_priceCents : Z;
  tr_oldWeight : PyFloat.float;
  tr_targetAbsWeight : PyFloat.float
}.

(** A [for] loop whose body may raise. *)
Fixpoint for_each {A S : Type} (body : S -> A -> result S) (l : list A)
    (s : S) : result S :=
  match l with
  | [] => Ok s
  | a :: l' => s' <- body s a ;; for_each body l' s'
  end.

(** First loop of [compute_weights]. *)
Definition nav_step (live_prices : prices_t) (positions_nav_cents : Z)
    (item : string * Z) : Z :=
  let '(ticker, shares) := item in
  match PyDict.lookup live_prices ticker with
  | None => positions_nav_cents
  | Some price => positions_nav_cents + price * shares
  end.

Definition positions_nav (holdings : holdings_t) (live_prices : prices_t) : Z :=
  fold_left (nav_step live_prices) (PyDict.items holdings) 0.

Definition total_nav (holdings : holdings_t) (cash_cents : Z)
    (live_prices : prices_t) : Z :=
  positions_nav holdings live_prices + cash_cents.

(** Second loop of [compute_weights]. *)
Definition weight_step (live_prices : prices_t) (total_nav_cents : Z)
    (weights : weights_t) (item : string * Z) : result weights_t :=
  let '(ticker, shares) := item in
  match PyDict.lookup live_prices ticker with
  | None => Ok weights
  | Some price =>
      let pos_nav := price * shares in
      weight <- PyFloat.int_truediv pos_nav total_nav_cents ;;
      Ok (PyDict.set weights ticker weight)
  end.

Definition compute_weights (holdings : holdings_t) (cash_cents : Z)
    (live_prices : prices_t) : result (weights_t * Z * Z) :=
  let positions_nav_cents := positions_nav holdings live_prices in
  let total_nav_cents := positions_nav_cents + cash_cents in
  if total_nav_cents <=? 0 then Raise (RuntimeError total_nav_cents)
  else
    weights <- for_each (weight_step live_prices total_nav_cents)
                 (PyDict.items holdings) PyDict.empty ;;
    Ok (weights, total_nav_cents, positions_nav_cents).

(** Body of the loop of [build_rebalance_trades]. *)
Definition trade_step (live_prices : prices_t) (max_abs_weight : PyFloat.float)
    (weights : weights_t) (total_nav_cents : Z)
    (trades : list trade) (item : string * Z) : result (list trade) :=
  let '(ticker, net_shares) := item in
  if net_shares =? 0 then Ok trades
  else
    match PyDict.lookup live_prices ticker with
    | None => Ok trades
    | Some price =>
        let weight := PyDict.get weights ticker PyFloat.zero in
        let abs_weight := PyFloat.abs weight in
        if PyFloat.leb abs_weight max_abs_weight then Ok trades
        else
          let pos_nav_cents := price * net_shares in
          boundary <- PyFloat.mul_int max_abs_weight total_nav_cents ;;
          boundary_cents <- PyFloat.to_int boundary ;;
          target_nav_cents <- PyFloat.copysign_int boundary_cents pos_nav_cents ;;
          desired <- PyFloat.div_int (PyFloat.abs target_nav_cents) price ;;
          desired_abs_shares <- PyFloat.floor desired ;;
          let current_abs_shares := Z.abs net_shares in
          if desired_abs_shares >=? current_abs_shares then Ok trades
          else
            let shares_to_trade_abs := current_abs_shares - desired_abs_shares in
            if shares_to_trade_abs <=? 0 then Ok trades
            else
              let trade_type :=
                if net_shares >? 0 then "SELL"%string else "BUY"%string in
              Ok (trades ++ [ {| tr_ticker := ticker;
                                 tr_type := trade_type;
                                 tr_shares := shares_to_trade_abs;
                                 tr_priceCents := price;
                                 tr_oldWeight := weight;
                                 tr_targetAbsWeight := max_abs_weight |} ])
    end.

Definition build_rebalance_trades (holdings : holdings_t) (cash_cents : Z)
    (live_prices : prices_t) (max_abs_weight : PyFloat.float)
    : result (list trade) :=
  '(weights, total_nav_cents, _) <-
    compute_weights holdings cash_cents live_prices ;;
  for_each (trade_step live_prices max_abs_weight weights total_nav_cents)
    (PyDict.items holdings) [].

(** The transaction [main] appends to the ledger for a proposed trade. *)
Definition tx_of_trade (today_str : string) (t : trade) : transaction :=
  {| tx_date := Some today_str;
     tx_ticker := Some (tr_ticker t);
     tx_type := Some (tr_type t);
     tx_shares := Some (tr_shares t);
     tx_priceCents := Some (tr_priceCents t) |}.

(** ** Notions used in the statements *)

(** The ledger with starting cash [cash0] and transactions [txs]. *)
Definition ledger (cash0 : Z) (txs : list transaction) : config :=
  {| startingCashCents := Some cash0; transactions := Some txs |}.

(** A transaction the replay drops: empty or missing ticker, shares not
    positive, negative price, or a type other than BUY and SELL. *)
Definition dropped (tx : transaction) : Prop :=
  or_empty (tx_ticker tx) = EmptyString
  \/ get_or (tx_shares tx) 0 <= 0
  \/ get_or (tx_priceCents tx) 0 < 0
  \/ (PyStr.upper (or_empty (tx_type tx)) <> "BUY"%string
      /\ PyStr.upper (or_empty (tx_type tx)) <> "SELL"%string).

(** Scenario C: SELL 50 when holding 10 leaves a short position of 40. *)
Definition scenario_C_ledger : config :=
  ledger 0
    [ {| tx_date := Some "2024-01-02"%string; tx_ticker := Some "XYZ"%string;
         tx_type := Some "BUY"%string; tx_shares := Some 10;
         tx_priceCents := Some 100 |};
      {| tx_date := Some "2024-01-03"%string; tx_ticker := Some "XYZ"%string;
         tx_type := Some "SELL"%string; tx_shares := Some 50;
         tx_priceCents := Some 100 |} ].

(** What [apply_tx] does with a transaction: nothing, or a change of one
    ticker's share count and of cash. *)
Definition tx_effect (tx : transaction) : option (string * Z * Z) :=
  let ttype := PyStr.upper (or_empty (tx_type tx)) in
  let shares := get_or (tx_shares tx) 0 in
  let amount := shares * get_or (tx_priceCents tx) 0 in
  if malformed tx then None
  else if String.eqb ttype "BUY" then
    Some (or_empty (tx_ticker tx), shares, - amount)
  else if String.eqb ttype "SELL" then
    Some (or_empty (tx_ticker tx), - shares, amount)
  else None.

Definition apply_effect (st : holdings_t * Z) (eff : option (string * Z * Z))
    : holdings_t * Z :=
  match eff with
  | None => st
  | Some (ticker, dshares, dcash) =>
      (PyDict.set (fst st) ticker (PyDict.get (fst st) ticker 0 + dshares),
       snd st + dcash)
  end.

Definition apply_all (st : holdings_t * Z) (txs : list transaction)
    : holdings_t * Z :=
  fold_left apply_tx txs st.

(** Equality of replay results: equal dicts ([==] on dicts ignores the
    order of insertion) and equal cash. *)
Definition state_equiv (s1 s2 : holdings_t * Z) : Prop :=
  PyDict.equiv (fst s1) (fst s2) /\ snd s1 = snd s2.

(** The transactions dated after [D1] and not after [D2]. *)
Definition in_window (D1 D2 : string) (tx : transaction) : bool :=
  match tx_date tx with
  | Some d => PyStr.truthy d && PyStr.gtb d D1 && negb (PyStr.gtb d D2)
  | None => false
  end.

Definition digit (c : ascii) : option N :=
  let n := N_of_ascii c in
  if (48 <=? n)%N && (n <=? 57)%N then Some (n - 48)%N else None.

Definition two_digits (a b : ascii) : option N :=
  match digit a, digit b with
  | Some x, Some y => Some (10 * x + y)%N
  | _, _ => None
  end.

(** A calendar day written YYYY-MM-DD. *)
Definition iso_calendar_day (d : string) : bool :=
  match d with
  | String y1 (String y2 (String y3 (String y4 (String h1
      (String m1 (String m2 (String h2 (String d1 (String d2
        EmptyString))))))))) =>
      match digit y1, digit y2, digit y3, digit y4,
            two_digits m1 m2, two_digits d1 d2 with
      | Some _, Some _, Some _, Some _, Some month, Some day =>
          Ascii.eqb h1 "-" && Ascii.eqb h2 "-"
          && (1 <=? month)%N && (month <=? 12)%N
          && (1 <=? day)%N && (day <=? 31)%N
      | _, _, _, _, _, _ => false
      end
  | _ => false
  end.

(** [x] is a NaN or carries the sign [s]. *)
Definition has_sign (s : bool) (x : PyFloat.float) : Prop :=
  match x with
  | S754_nan => True
  | S754_zero s' | S754_infinity s' | S754_finite s' _ _ => s' = s
  end.

(** What a proposed trade is to the position it trims. *)
Definition trims (net_shares : Z) (t : trade) : Prop :=
  net_shares <> 0
  /\ tr_type t = (if net_shares >? 0 then "SELL" else "BUY")%string
  /\ 0 < tr_shares t <= Z.abs net_shares.

(** The position left by a trade: a SELL takes its shares from the count,
    a BUY adds them. *)
Definition position_after (net_shares : Z) (t : trade) : Z :=
  if String.eqb (tr_type t) "SELL" then net_shares - tr_shares t
  else net_shares + tr_shares t.

Definition prices_nonneg (live_prices : prices_t) : Prop :=
  forall ticker price,
    PyDict.lookup live_prices ticker = Some price -> 0 <= price.

(** The double below 5/6, written [0.8333333333333333]. *)
Definition below_five_sixths : PyFloat.float :=
  S754_finite false 7505999378950826 (-53).

(** ** The price snapshot and [load_prices] *)

(** Values that [json.load] produces; arrays and objects are [JOther]. *)
Inductive json_value : Type :=
  | JNull
  | JBool (b : bool)
  | JInt (n : Z)
  | JFloat (x : PyFloat.float)
  | JString (s : string)
  | JOther.

(** An entry of the snapshot's [symbols] object; a field is [None] when
    its key is missing. *)
Record symbol_info : Type := {
  info_priceCents : option json_value;
  info_currency : option json_value
}.

Definition snapshot_t : Type := PyDict.dict symbol_info.

(** [int(pc)] under the test [isinstance(pc, (int, float))]; [bool] is a
    subclass of [int]. [None] where the test fails. *)
Definition int_of_number (pc : option json_value) : option (result Z) :=
  match pc with
  | Some (JInt n) => Some (Ok n)
  | Some (JBool b) => Some (Ok (if b then 1 else 0))
  | Some (JFloat x) => Some (PyFloat.to_int x)
  | _ => None
  end.

(** Body of the loop of [load_prices]. *)
Definition load_prices_step (price_cents : prices_t)
    (item : string * symbol_info) : result prices_t :=
  let '(ticker, info) := item in
  match int_of_number (info_priceCents info) with
  | Some r => n <- r ;; Ok (PyDict.set price_cents ticker n)
  | None => Ok price_cents
  end.

(** [load_prices] on the parsed content of the snapshot file; [symbols]
    is [data.get("symbols")]. *)
Definition load_prices (symbols : option snapshot_t) : result prices_t :=
  for_each load_prices_step (PyDict.items (get_or symbols PyDict.empty))
    PyDict.empty.

(** ** [main] of the rebalancer *)

Definition MAX_ABS_WEIGHT : PyFloat.float := PyFloat.lit_0_15.

(** What [main] does after loading: it returns with nothing to
    rebalance, returns with every position within the limit, or appends
    the trades to the ledger and saves it. *)
Inductive main_outcome : Type :=
  | NoHoldings
  | WithinLimit
  | Wrote (cfg : config) (trades : list trade).

(** [main] on the loaded config and snapshot, with today's date; the
    appended entries carry the fields replay reads. *)
Definition main (cfg : config) (symbols : option snapshot_t)
    (today_str : string) : result main_outcome :=
  prices <- load_prices symbols ;;
  let '(holdings, cash_cents) := compute_holdings_and_cash cfg None in
  match holdings with
  | [] => Ok NoHoldings
  | _ :: _ =>
      trades <- build_rebalance_trades holdings cash_cents prices
                  MAX_ABS_WEIGHT ;;
      match trades with
      | [] => Ok WithinLimit
      | _ :: _ =>
          let tx_list := get_or (transactions cfg) [] in
          Ok (Wrote {| startingCashCents := startingCashCents cfg;
                       transactions :=
                         Some (tx_list ++ map (tx_of_trade today_str) trades) |}
                trades)
      end
  end.

(** ** The price updater, [scripts/update_prices.py] *)

(** A point of a symbol's price history. *)
Record price_point : Type := {
  pp_date : option string;
  pp_priceCents : Z
}.

Definition history_t : Type := PyDict.dict (list price_point).

Fixpoint last_point (series : list price_point) : option price_point :=
  match series with
  | [] => None
  | [p] => Some p
  | _ :: series' => last_point series'
  end.

(** [series[-1].get("date") == today] for a non-empty series. *)
Definition dated_today (today : string) (series : list price_point) : bool :=
  match last_point series with
  | Some p =>
      match pp_date p with
      | Some d => String.eqb d today
      | None => false
      end
  | None => false
  end.

(** The history update for one symbol: overwrite today's price if the
    last point is dated today, append a point otherwise. *)
Definition record_price (today : string) (cents : Z)
    (series : list price_point) : list price_point :=
  match last_point series with
  | Some p =>
      if dated_today today series then
        removelast series ++ [ {| pp_date := pp_date p; pp_priceCents := cents |} ]
      else series ++ [ {| pp_date := Some today; pp_priceCents := cents |} ]
  | None => series ++ [ {| pp_date := Some today; pp_priceCents := cents |} ]
  end.

(** [symbol_set.add(x)] followed at the end by [sorted(symbol_set)]: the
    set is kept as its sorted listing, which is all the code observes of
    it. *)
Fixpoint sorted_add (x : string) (l : list string) : list string :=
  match l with
  | [] => [x]
  | y :: l' =>
      match String.compare x y with
      | Lt => x :: l
      | Eq => l
      | Gt => y :: sorted_add x l'
      end
  end.

Definition add_if_truthy (symbol_set : list string) (t : option string)
    : list string :=
  if PyStr.truthy (or_empty t) then sorted_add (or_empty t) symbol_set
  else symbol_set.

Definition EXTRA_TICKERS : list string := ["SPY"%string].

(** [symbols_to_track]; [positions] lists [pos.get("ticker")] for the
    entries of [cfg.get("positions", [])]. *)
Definition symbols_to_track (positions : list (option string))
    (cfg : config) : list string :=
  let s1 := fold_left add_if_truthy positions [] in
  let s2 := fold_left add_if_truthy
              (map tx_ticker (get_or (transactions cfg) [])) s1 in
  fold_left (fun s extra => sorted_add extra s) EXTRA_TICKERS s2.

Section UpdatePrices.

(** The outcome of the network call for a symbol: the price in cents or
    the exception raised. *)
Variable fetch_price_cents : string -> result Z.

(** Body of the fetch loop. *)
Definition update_step (today : string) (st : snapshot_t * history_t)
    (symbol : string) : snapshot_t * history_t :=
  let '(latest_symbols, history_symbols) := st in
  match fetch_price_cents symbol with
  | Raise _ => st
  | Ok cents =>
      let latest_symbols' :=
        PyDict.set latest_symbols symbol
          {| info_priceCents := Some (JInt cents);
             info_currency := Some (JString "USD") |} in
      let series := PyDict.get history_symbols symbol [] in
      (latest_symbols',
       PyDict.set history_symbols symbol (record_price today cents series))
  end.

(** The fetch loop of [main] from an empty [latest["symbols"]]: the
    symbols object of the snapshot and the symbols object of the history
    when the loop ends. *)
Definition update_prices_main (positions : list (option string))
    (cfg : config) (history_symbols : history_t) (today : string)
    : snapshot_t * history_t :=
  fold_left (update_step today) (symbols_to_track positions cfg)
    (PyDict.empty, history_symbols).

End UpdatePrices.

(** The snapshot file [main] writes: the time of the run, to the second,
    and the symbols object. *)
Record snapshot_file : Type := {
  snap_updatedAt : string;
  snap_symbols : snapshot_t
}.

(** What [main] of the updater writes to the snapshot file and to the
    history file; [now_iso] is the time of the run. *)
Definition update_prices_files (fetch_price_cents : string -> result Z)
    (positions : list (option string)) (cfg : config)
    (history_symbols : history_t) (today now_iso : string)
    : snapshot_file * history_t :=
  ({| snap_updatedAt := now_iso;
      snap_symbols :=
        fst (update_prices_main fetch_price_cents positions cfg
               history_symbols today) |},
   snd (update_prices_main fetch_price_cents positions cfg history_symbols
          today)).

(** ** Notions used in the further statements *)

(** What one iteration of the replay loop does under a cutoff. *)
Definition applied (cut_off : string) (tx : transaction)
    : option (string * Z * Z) :=
  if after_cut_off cut_off tx then None else tx_effect tx.

(** Net change of the share count of [ticker] and of cash over a list of
    effects. *)
Definition eff_shares (ticker : string) (eff : option (string * Z * Z)) : Z :=
  match eff with
  | Some (k, dshares, _) => if String.eqb k ticker then dshares else 0
  | None => 0
  end.

Definition eff_cash (eff : option (string * Z * Z)) : Z :=
  match eff with
  | Some (_, _, dcash) => dcash
  | None => 0
  end.

Definition net_shares (ticker : string) (effs : list (option (string * Z * Z)))
    : Z :=
  fold_right (fun eff acc => eff_shares ticker eff + acc) 0 effs.

Definition net_cash (effs : list (option (string * Z * Z))) : Z :=
  fold_right (fun eff acc => eff_cash eff + acc) 0 effs.

Definition names_ticker (ticker : string) (eff : option (string * Z * Z))
    : Prop :=
  exists dshares dcash, eff = Some (ticker, dshares, dcash).

(** [l1] is [l2] with some elements left out, order kept. *)
Inductive subseq {A : Type} : list A -> list A -> Prop :=
  | subseq_nil : subseq [] []
  | subseq_skip x l1 l2 : subseq l1 l2 -> subseq l1 (x :: l2)
  | subseq_keep x l1 l2 : subseq l1 l2 -> subseq (x :: l1) (x :: l2).

(** Dates present and strictly increasing. *)
Fixpoint dates_increasing (series : list price_point) : Prop :=
  match series with
  | [] => True
  | p :: series' =>
      pp_date p <> None
      /\ match series' with
         | [] => True
         | q :: _ =>
             String.compare (or_empty (pp_date p)) (or_empty (pp_date q)) = Lt
         end
      /\ dates_increasing series'
  end.

Fixpoint strictly_sorted (l : list string) : Prop :=
  match l with
  | [] => True
  | x :: l' =>
      match l' with
      | [] => True
      | y :: _ => String.compare x y = Lt
      end
      /\ strictly_sorted l'
  end.

(** A proposal for [ticker] as [trade_step] builds it. *)
Definition quotes (live_prices : prices_t) (max_abs_weight : PyFloat.float)
    (weights : weights_t) (t : trade) : Prop :=
  PyDict.lookup live_prices (tr_ticker t) = Some (tr_priceCents t)
  /\ tr_priceCents t <> 0
  /\ tr_oldWeight t = PyDict.get weights (tr_ticker t) PyFloat.zero
  /\ tr_targetAbsWeight t = max_abs_weight
  /\ PyFloat.leb (PyFloat.abs (tr_oldWeight t)) max_abs_weight = false.

(** What [load_prices] keeps of an entry. *)
Definition price_read (info : option symbol_info) : option Z :=
  match info with
  | Some info =>
      match int_of_number (info_priceCents info) with
      | Some (Ok n) => Some n
      | _ => None
      end
  | None => None
  end.

(** * Properties *)

(** ** Dict lemmas *)

Section DictFacts.
Context {V : Type}.
Implicit Types (d : PyDict.dict V) (k : string) (v : V).

Lemma lookup_set_same d k v : PyDict.lookup (PyDict.set d k v) k = Some v.
Proof.
  induction d as [|[k' v'] d IH]; simpl.
  - now rewrite String.eqb_refl.
  - destruct (String.eqb k' k) eqn:E; simpl; rewrite E; auto.
Qed.

Lemma lookup_set_other d k k' v :
  k <> k' -> PyDict.lookup (PyDict.set d k v) k' = PyDict.lookup d k'.
Proof.
  intros Hne. induction d as [|[k0 v0] d IH]; simpl.
  - destruct (String.eqb k k') eqn:E; auto.
    apply String.eqb_eq in E. contradiction.
  - destruct (String.eqb k0 k) eqn:E; simpl.
    + apply String.eqb_eq in E. subst k0.
      destruct (String.eqb k k') eqn:E'; auto.
      apply String.eqb_eq in E'. contradiction.
    + now rewrite IH.
Qed.

Lemma get_set_same d k v default : PyDict.get (PyDict.set d k v) k default = v.
Proof. unfold PyDict.get. now rewrite lookup_set_same. Qed.

Lemma get_set_other d k k' v default :
  k <> k' ->
  PyDict.get (PyDict.set d k v) k' default = PyDict.get d k' default.
Proof. intros. unfold PyDict.get. now rewrite lookup_set_other. Qed.

Lemma lookup_in d k v : PyDict.lookup d k = Some v -> In (k, v) (PyDict.items d).
Proof.
  induction d as [|[k' v'] d IH]; simpl; [discriminate|].
  destruct (String.eqb k' k) eqn:E; intros H.
  - apply String.eqb_eq in E. left. congruence.
  - right. auto.
Qed.

Lemma in_lookup d k v :
  PyDict.wf d -> In (k, v) (PyDict.items d) -> PyDict.lookup d k = Some v.
Proof.
  unfold PyDict.wf, PyDict.keys, PyDict.items.
  induction d as [|[k' v'] d IH]; simpl; [tauto|].
  intros Hnd [Heq|Hin].
  - inversion Heq; subst. now rewrite String.eqb_refl.
  - inversion Hnd as [|? ? Hnotin Hnd']; subst.
    destruct (String.eqb k' k) eqn:E; [|auto].
    apply String.eqb_eq in E. subst k'.
    exfalso. apply Hnotin. change k with (fst (k, v)). now apply in_map.
Qed.

Lemma equiv_refl d : PyDict.equiv d d.
Proof. now intros k. Qed.

Lemma equiv_set d1 d2 k v :
  PyDict.equiv d1 d2 -> PyDict.equiv (PyDict.set d1 k v) (PyDict.set d2 k v).
Proof.
  intros H k'. destruct (String.eqb_spec k k') as [->|Hne].
  - now rewrite !lookup_set_same.
  - now rewrite !lookup_set_other.
Qed.

Lemma equiv_get d1 d2 k default :
  PyDict.equiv d1 d2 -> PyDict.get d1 k default = PyDict.get d2 k default.
Proof. intros H. unfold PyDict.get. now rewrite H. Qed.
End DictFacts.

(** ** Replay *)

Lemma replay_from_app cut_off st txs1 txs2 :
  replay_from cut_off st (txs1 ++ txs2)
  = replay_from cut_off (replay_from cut_off st txs1) txs2.
Proof. apply fold_left_app. Qed.

Lemma replay_from_cons cut_off st tx txs :
  replay_from cut_off st (tx :: txs)
  = replay_from cut_off (replay_step cut_off st tx) txs.
Proof. reflexivity. Qed.

Lemma compute_ledger_snoc cash0 txs tx as_of :
  compute_holdings_and_cash (ledger cash0 (txs ++ [tx])) as_of
  = replay_step (cut_off_of as_of)
      (compute_holdings_and_cash (ledger cash0 txs) as_of) tx.
Proof.
  unfold compute_holdings_and_cash. simpl. now rewrite replay_from_app.
Qed.

Lemma apply_tx_buy holdings cash tx :
  malformed tx = false ->
  PyStr.upper (or_empty (tx_type tx)) = "BUY"%string ->
  apply_tx (holdings, cash) tx
  = (PyDict.set holdings (or_empty (tx_ticker tx))
       (PyDict.get holdings (or_empty (tx_ticker tx)) 0 + get_or (tx_shares tx) 0),
     cash - get_or (tx_shares tx) 0 * get_or (tx_priceCents tx) 0).
Proof. intros Hm Ht. unfold apply_tx. now rewrite Hm, Ht. Qed.

Lemma apply_tx_sell holdings cash tx :
  malformed tx = false ->
  PyStr.upper (or_empty (tx_type tx)) = "SELL"%string ->
  apply_tx (holdings, cash) tx
  = (PyDict.set holdings (or_empty (tx_ticker tx))
       (PyDict.get holdings (or_empty (tx_ticker tx)) 0 - get_or (tx_shares tx) 0),
     cash + get_or (tx_shares tx) 0 * get_or (tx_priceCents tx) 0).
Proof. intros Hm Ht. unfold apply_tx. now rewrite Hm, Ht. Qed.

Lemma apply_tx_dropped st tx : dropped tx -> apply_tx st tx = st.
Proof.
  destruct st as [holdings cash]. unfold apply_tx, malformed.
  intros [H|[H|[H|[Hb Hs]]]].
  - now rewrite H.
  - apply Z.leb_le in H. rewrite H. now rewrite orb_true_r.
  - apply Z.ltb_lt in H. rewrite H. now rewrite orb_true_r.
  - apply String.eqb_neq in Hb, Hs. rewrite Hb, Hs.
    now destruct (_ || _).
Qed.

Lemma replay_step_dropped cut_off st tx :
  dropped tx -> replay_step cut_off st tx = st.
Proof.
  intros H. unfold replay_step.
  destruct (after_cut_off cut_off tx); [reflexivity|now apply apply_tx_dropped].
Qed.

(** Upper-casing is Unicode's: the long s upper-cases to S, so a type
    written with it is a SELL. *)
Lemma upper_long_s_sell :
  PyStr.upper (String (ascii_of_N 197) (String (ascii_of_N 191) "ell"))
  = "SELL"%string
  /\ compute_holdings_and_cash
       (ledger 1000
          [ {| tx_date := Some "2024-01-02"%string;
               tx_ticker := Some "XYZ"%string;
               tx_type :=
                 Some (String (ascii_of_N 197) (String (ascii_of_N 191) "ell"));
               tx_shares := Some 1; tx_priceCents := Some 100 |} ]) None
     = ([("XYZ"%string, -1)], 1100).
Proof. split; vm_compute; reflexivity. Qed.

(** C3: a valid BUY processed during replay adds its shares to the
    ticker's net share count and takes shares times priceCents from cash;
    a valid SELL subtracts the shares and adds the amount to cash. No
    bound is checked: the count after a SELL is the count before minus the
    shares, whatever its sign, and replay has no error path. Other
    tickers are left as they were. *)
Theorem replay_buy_sell_arithmetic :
  forall (cash0 : Z) (txs : list transaction) (tx : transaction)
         (as_of : option string),
    let before := compute_holdings_and_cash (ledger cash0 txs) as_of in
    let after := compute_holdings_and_cash (ledger cash0 (txs ++ [tx])) as_of in
    let ticker := or_empty (tx_ticker tx) in
    let shares := get_or (tx_shares tx) 0 in
    let price_cents := get_or (tx_priceCents tx) 0 in
    after_cut_off (cut_off_of as_of) tx = false ->
    ticker <> EmptyString -> 0 < shares -> 0 <= price_cents ->
    (PyStr.upper (or_empty (tx_type tx)) = "BUY"%string ->
       PyDict.get (fst after) ticker 0 = PyDict.get (fst before) ticker 0 + shares
       /\ snd after = snd before - shares * price_cents
       /\ forall other, other <> ticker ->
            PyDict.lookup (fst after) other = PyDict.lookup (fst before) other)
    /\
    (PyStr.upper (or_empty (tx_type tx)) = "SELL"%string ->
       PyDict.get (fst after) ticker 0 = PyDict.get (fst before) ticker 0 - shares
       /\ snd after = snd before + shares * price_cents
       /\ forall other, other <> ticker ->
            PyDict.lookup (fst after) other = PyDict.lookup (fst before) other).
Proof.
  intros cash0 txs tx as_of before after ticker shares price_cents
    Hdate Hticker Hshares Hprice.
  assert (Hm : malformed tx = false).
  { unfold malformed. fold ticker shares price_cents.
    destruct ticker; [congruence|]. simpl.
    apply orb_false_iff. split; [apply Z.leb_gt|apply Z.ltb_ge]; lia. }
  assert (Hafter : after = apply_tx before tx).
  { unfold after, before. rewrite compute_ledger_snoc.
    unfold replay_step. now rewrite Hdate. }
  destruct before as [holdings cash] eqn:Hbefore.
  split; intros Htype.
  - rewrite Hafter, (apply_tx_buy _ _ _ Hm Htype). simpl.
    fold ticker shares price_cents. repeat split.
    + apply get_set_same.
    + intros other Hne. apply lookup_set_other. congruence.
  - rewrite Hafter, (apply_tx_sell _ _ _ Hm Htype). simpl.
    fold ticker shares price_cents. repeat split.
    + apply get_set_same.
    + intros other Hne. apply lookup_set_other. congruence.
Qed.

Lemma replay_buy_sell_arithmetic_witness :
  PyDict.get (fst (compute_holdings_and_cash scenario_C_ledger None))
    "XYZ"%string 0 = 10 - 50
  /\ snd (compute_holdings_and_cash scenario_C_ledger None) = -1000 + 50 * 100.
Proof.
  pose proof (replay_buy_sell_arithmetic 0
    [ {| tx_date := Some "2024-01-02"%string; tx_ticker := Some "XYZ"%string;
         tx_type := Some "BUY"%string; tx_shares := Some 10;
         tx_priceCents := Some 100 |} ]
    {| tx_date := Some "2024-01-03"%string; tx_ticker := Some "XYZ"%string;
       tx_type := Some "SELL"%string; tx_shares := Some 50;
       tx_priceCents := Some 100 |} None) as H.
  simpl in H.
  destruct H as [_ H]; [reflexivity|discriminate|lia|lia|].
  destruct (H eq_refl) as (Hh & Hc & _).
  split; [exact Hh|exact Hc].
Defined.

(** C6: a transaction with an empty or missing ticker, a share count that
    is not positive (shares = 0 included), a negative priceCents, or a type
    that is neither BUY nor SELL after upper-casing changes neither the
    holdings nor the cash, wherever it stands in the ledger; replay has no
    error path. *)
Theorem replay_drops_malformed :
  forall (cash0 : Z) (before after : list transaction) (tx : transaction)
         (as_of : option string),
    dropped tx ->
    compute_holdings_and_cash (ledger cash0 (before ++ tx :: after)) as_of
    = compute_holdings_and_cash (ledger cash0 (before ++ after)) as_of.
Proof.
  intros cash0 before after tx as_of Hd.
  unfold compute_holdings_and_cash. simpl.
  rewrite !replay_from_app, replay_from_cons.
  now rewrite replay_step_dropped.
Qed.

(** Scenario D: a transaction with shares = 0 is skipped. *)
Lemma replay_drops_malformed_witness :
  compute_holdings_and_cash
    (ledger 500
       ([] ++ {| tx_date := Some "2024-01-02"%string;
                 tx_ticker := Some "XYZ"%string; tx_type := Some "BUY"%string;
                 tx_shares := Some 0; tx_priceCents := Some 100 |} :: []))
    None
  = compute_holdings_and_cash (ledger 500 ([] ++ [])) None.
Proof.
  apply replay_drops_malformed.
  right; left. simpl. lia.
Defined.

(** C10: a transaction whose date is missing or empty is never skipped by
    the cutoff filter. Whatever cutoff is supplied, and with none, replay
    runs the body of the loop on it. *)
Theorem replay_undated_never_cut :
  forall (cash0 : Z) (txs : list transaction) (tx : transaction)
         (as_of : option string),
    tx_date tx = None \/ tx_date tx = Some EmptyString ->
    compute_holdings_and_cash (ledger cash0 (txs ++ [tx])) as_of
    = apply_tx (compute_holdings_and_cash (ledger cash0 txs) as_of) tx
    /\ replay_step (cut_off_of as_of)
         (compute_holdings_and_cash (ledger cash0 txs) as_of) tx
       = replay_step (cut_off_of None)
           (compute_holdings_and_cash (ledger cash0 txs) as_of) tx.
Proof.
  intros cash0 txs tx as_of Hdate.
  assert (Hcut : forall c, after_cut_off c tx = false).
  { intros c. unfold after_cut_off. now destruct Hdate as [-> | ->]. }
  rewrite compute_ledger_snoc. unfold replay_step.
  now rewrite !Hcut.
Qed.

Lemma replay_undated_never_cut_witness :
  compute_holdings_and_cash
    (ledger 1000
       ([] ++ [ {| tx_date := Some EmptyString; tx_ticker := Some "XYZ"%string;
                   tx_type := Some "buy"%string; tx_shares := Some 3;
                   tx_priceCents := Some 100 |} ]))
    (Some "2020-01-01"%string)
  = ([("XYZ"%string, 3)], 700).
Proof.
  exact (proj1 (replay_undated_never_cut 1000 []
    {| tx_date := Some EmptyString; tx_ticker := Some "XYZ"%string;
       tx_type := Some "buy"%string; tx_shares := Some 3;
       tx_priceCents := Some 100 |}
    (Some "2020-01-01"%string) (or_intror eq_refl))).
Defined.

(** ** Order on date strings *)

Lemma ascii_compare_refl c : Ascii.compare c c = Eq.
Proof. unfold Ascii.compare. apply N.compare_refl. Qed.

Lemma string_compare_gt_trans :
  forall a b c : string,
    String.compare a b = Gt -> String.compare c b = Lt ->
    String.compare a c = Gt.
Proof.
  induction a as [|x a IH]; intros [|y b] [|z c]; simpl;
    try discriminate; auto.
  unfold Ascii.compare. intros Hab Hcb.
  destruct (N.compare_spec (N_of_ascii x) (N_of_ascii y)) as [Hxy|Hxy|Hxy];
    destruct (N.compare_spec (N_of_ascii z) (N_of_ascii y)) as [Hzy|Hzy|Hzy];
    try discriminate;
    destruct (N.compare_spec (N_of_ascii x) (N_of_ascii z)) as [Hxz|Hxz|Hxz];
    try lia; eauto.
Qed.

(** A date after the later cutoff is after the earlier one. *)
Lemma gtb_cut_off_mono d D1 D2 :
  String.compare D1 D2 = Lt -> PyStr.gtb d D2 = true -> PyStr.gtb d D1 = true.
Proof.
  unfold PyStr.gtb. intros H12 H.
  destruct (String.compare d D2) eqn:E; try discriminate.
  now rewrite (string_compare_gt_trans d D2 D1 E H12).
Qed.

(** ** Replay as a sum of effects *)

Lemma apply_tx_effect st tx : apply_tx st tx = apply_effect st (tx_effect tx).
Proof.
  destruct st as [holdings cash]. unfold apply_tx, tx_effect, apply_effect.
  destruct (malformed tx); [reflexivity|].
  destruct (String.eqb _ "BUY"); [simpl; f_equal; f_equal; lia|].
  destruct (String.eqb _ "SELL"); [simpl; f_equal; f_equal; lia|].
  reflexivity.
Qed.

Lemma state_equiv_refl s : state_equiv s s.
Proof. split; [apply equiv_refl|reflexivity]. Qed.

Lemma state_equiv_sym s1 s2 : state_equiv s1 s2 -> state_equiv s2 s1.
Proof. intros [H H']. split; [intros k; now rewrite H|congruence]. Qed.

Lemma state_equiv_trans s1 s2 s3 :
  state_equiv s1 s2 -> state_equiv s2 s3 -> state_equiv s1 s3.
Proof.
  intros [H1 H1'] [H2 H2']. split; [|congruence].
  intros k. now rewrite H1.
Qed.

Lemma apply_effect_equiv s1 s2 eff :
  state_equiv s1 s2 -> state_equiv (apply_effect s1 eff) (apply_effect s2 eff).
Proof.
  intros [Hh Hc]. destruct eff as [[[k ds] dc]|]; simpl; [|now split].
  split; simpl; [|congruence].
  rewrite (equiv_get _ _ k 0 Hh). now apply equiv_set.
Qed.

Lemma apply_effect_comm s e1 e2 :
  state_equiv (apply_effect (apply_effect s e1) e2)
              (apply_effect (apply_effect s e2) e1).
Proof.
  destruct e1 as [[[k1 d1] c1]|], e2 as [[[k2 d2] c2]|];
    try apply state_equiv_refl.
  destruct s as [h c]. split; simpl; [|lia].
  intros k. destruct (String.eqb_spec k1 k2) as [->|Hne].
  - rewrite !get_set_same.
    destruct (String.eqb_spec k2 k) as [->|Hk].
    + rewrite !lookup_set_same. f_equal. lia.
    + now rewrite !lookup_set_other.
  - rewrite (get_set_other h k1 k2) by assumption.
    rewrite (get_set_other h k2 k1) by congruence.
    destruct (String.eqb_spec k1 k) as [->|Hk1].
    + rewrite lookup_set_other by congruence. now rewrite !lookup_set_same.
    + destruct (String.eqb_spec k2 k) as [->|Hk2].
      * rewrite lookup_set_same.
        rewrite lookup_set_other by assumption. now rewrite lookup_set_same.
      * now rewrite !lookup_set_other.
Qed.

Lemma apply_tx_equiv s1 s2 tx :
  state_equiv s1 s2 -> state_equiv (apply_tx s1 tx) (apply_tx s2 tx).
Proof. rewrite !apply_tx_effect. apply apply_effect_equiv. Qed.

Lemma apply_tx_comm s a b :
  state_equiv (apply_tx (apply_tx s a) b) (apply_tx (apply_tx s b) a).
Proof. rewrite !apply_tx_effect. apply apply_effect_comm. Qed.

Lemma apply_all_equiv txs : forall s1 s2,
  state_equiv s1 s2 -> state_equiv (apply_all s1 txs) (apply_all s2 txs).
Proof.
  induction txs as [|tx txs IH]; intros s1 s2 H; simpl; [exact H|].
  apply IH. now apply apply_tx_equiv.
Qed.

Lemma apply_all_snoc s txs tx :
  apply_all s (txs ++ [tx]) = apply_tx (apply_all s txs) tx.
Proof. unfold apply_all. now rewrite fold_left_app. Qed.

(** A transaction applied first or last gives the same result. *)
Lemma apply_all_push txs : forall s tx,
  state_equiv (apply_all (apply_tx s tx) txs) (apply_tx (apply_all s txs) tx).
Proof.
  induction txs as [|a txs IH]; intros s tx; simpl; [apply state_equiv_refl|].
  eapply state_equiv_trans; [|apply IH].
  apply apply_all_equiv, apply_tx_comm.
Qed.

(** Replay builds a dict: no ticker is listed twice. *)
Lemma set_keys_in {V : Type} (d : PyDict.dict V) k v k' :
  In k' (PyDict.keys (PyDict.set d k v)) -> k' = k \/ In k' (PyDict.keys d).
Proof.
  unfold PyDict.keys. induction d as [|[k0 v0] d IH]; simpl.
  - intros [H|[]]; auto.
  - destruct (String.eqb k0 k); simpl; [tauto|].
    intros [H|H]; [auto|]. destruct (IH H); auto.
Qed.

Lemma set_wf {V : Type} (d : PyDict.dict V) k v :
  PyDict.wf d -> PyDict.wf (PyDict.set d k v).
Proof.
  unfold PyDict.wf, PyDict.keys. induction d as [|[k0 v0] d IH]; simpl.
  - intros _. repeat constructor. tauto.
  - intros Hnd. inversion Hnd as [|? ? Hnotin Hnd']; subst.
    destruct (String.eqb_spec k0 k) as [->|Hne]; simpl.
    + now constructor.
    + constructor; [|auto].
      intros Hin. apply set_keys_in in Hin. destruct Hin; [congruence|].
      contradiction.
Qed.

Lemma apply_tx_wf st tx : PyDict.wf (fst st) -> PyDict.wf (fst (apply_tx st tx)).
Proof.
  rewrite apply_tx_effect. destruct (tx_effect tx) as [[[k ds] dc]|]; simpl;
    [apply set_wf|auto].
Qed.

Lemma apply_all_wf txs : forall st,
  PyDict.wf (fst st) -> PyDict.wf (fst (apply_all st txs)).
Proof.
  induction txs as [|tx txs IH]; intros st H; simpl; [exact H|].
  apply IH. now apply apply_tx_wf.
Qed.

Lemma replay_from_wf cut_off txs : forall st,
  PyDict.wf (fst st) -> PyDict.wf (fst (replay_from cut_off st txs)).
Proof.
  induction txs as [|tx txs IH]; intros st H; simpl; [exact H|].
  apply IH. unfold replay_step.
  destruct (after_cut_off cut_off tx); [exact H|now apply apply_tx_wf].
Qed.

Lemma compute_holdings_wf cfg as_of :
  PyDict.wf (fst (compute_holdings_and_cash cfg as_of)).
Proof.
  unfold compute_holdings_and_cash. apply replay_from_wf. constructor.
Qed.

(** C8: for cutoffs D1 < D2, replay up to D2 gives the holdings and cash
    of replay up to D1 followed by the transactions dated after D1 and not
    after D2 (the malformed ones among them having no effect). *)
Theorem replay_cutoff_extension :
  forall (cash0 : Z) (txs : list transaction) (D1 D2 : string),
    String.compare D1 D2 = Lt ->
    state_equiv
      (compute_holdings_and_cash (ledger cash0 txs) (Some D2))
      (apply_all (compute_holdings_and_cash (ledger cash0 txs) (Some D1))
         (filter (in_window D1 D2) txs)).
Proof.
  intros cash0 txs D1 D2 Hlt.
  induction txs as [|tx txs IH] using rev_ind; [apply state_equiv_refl|].
  rewrite !compute_ledger_snoc, filter_app. simpl cut_off_of.
  unfold replay_step at 1 2, in_window at 2, after_cut_off. simpl filter.
  destruct (tx_date tx) as [d|]; simpl.
  - destruct (PyStr.truthy d); simpl.
    + destruct (PyStr.gtb d D2) eqn:E2; simpl.
      * rewrite (gtb_cut_off_mono d D1 D2 Hlt E2). simpl.
        now rewrite app_nil_r.
      * destruct (PyStr.gtb d D1) eqn:E1; simpl.
        -- rewrite apply_all_snoc. now apply apply_tx_equiv.
        -- rewrite app_nil_r.
           eapply state_equiv_trans; [apply apply_tx_equiv, IH|].
           apply state_equiv_sym, apply_all_push.
    + rewrite app_nil_r.
      eapply state_equiv_trans; [apply apply_tx_equiv, IH|].
      apply state_equiv_sym, apply_all_push.
  - rewrite app_nil_r.
    eapply state_equiv_trans; [apply apply_tx_equiv, IH|].
    apply state_equiv_sym, apply_all_push.
Qed.

Lemma replay_cutoff_extension_witness :
  state_equiv
    (compute_holdings_and_cash
       (ledger 1000000
          [ {| tx_date := Some "2024-02-10"%string;
               tx_ticker := Some "MSFT"%string; tx_type := Some "BUY"%string;
               tx_shares := Some 5; tx_priceCents := Some 30000 |};
            {| tx_date := Some "2024-01-15"%string;
               tx_ticker := Some "AAPL"%string; tx_type := Some "BUY"%string;
               tx_shares := Some 10; tx_priceCents := Some 15000 |};
            {| tx_date := Some "2024-03-01"%string;
               tx_ticker := Some "AAPL"%string; tx_type := Some "SELL"%string;
               tx_shares := Some 4; tx_priceCents := Some 16000 |} ])
       (Some "2024-02-29"%string))
    ([("AAPL"%string, 10); ("MSFT"%string, 5)], 700000).
Proof.
  exact (replay_cutoff_extension 1000000
    [ {| tx_date := Some "2024-02-10"%string;
         tx_ticker := Some "MSFT"%string; tx_type := Some "BUY"%string;
         tx_shares := Some 5; tx_priceCents := Some 30000 |};
      {| tx_date := Some "2024-01-15"%string;
         tx_ticker := Some "AAPL"%string; tx_type := Some "BUY"%string;
         tx_shares := Some 10; tx_priceCents := Some 15000 |};
      {| tx_date := Some "2024-03-01"%string;
         tx_ticker := Some "AAPL"%string; tx_type := Some "SELL"%string;
         tx_shares := Some 4; tx_priceCents := Some 16000 |} ]
    "2024-01-31" "2024-02-29" eq_refl).
Defined.

(** ** Replay without a cutoff *)

Lemma digit_bounds c n :
  digit c = Some n -> (N_of_ascii c = n + 48 /\ n <= 9)%N.
Proof.
  unfold digit.
  destruct ((48 <=? N_of_ascii c)%N) eqn:E1; [|discriminate].
  destruct ((N_of_ascii c <=? 57)%N) eqn:E2; [|discriminate].
  simpl. intros H. inversion H; subst.
  apply N.leb_le in E1, E2. lia.
Qed.

Lemma iso_calendar_day_not_after_sentinel d :
  iso_calendar_day d = true -> PyStr.gtb d "9999-12-31" = false.
Proof.
  unfold iso_calendar_day.
  destruct d as [|y1 [|y2 [|y3 [|y4 [|h1 [|m1 [|m2 [|h2 [|d1 [|d2 [|? ?]]]]]]]]]]];
    try discriminate.
  destruct (digit y1) as [a1|] eqn:E1; [|discriminate].
  destruct (digit y2) as [a2|] eqn:E2; [|discriminate].
  destruct (digit y3) as [a3|] eqn:E3; [|discriminate].
  destruct (digit y4) as [a4|] eqn:E4; [|discriminate].
  unfold two_digits.
  destruct (digit m1) as [b1|] eqn:E5; [|discriminate].
  destruct (digit m2) as [b2|] eqn:E6; [|discriminate].
  destruct (digit d1) as [c1|] eqn:E7; [|discriminate].
  destruct (digit d2) as [c2|] eqn:E8; [|discriminate].
  apply digit_bounds in E1, E2, E3, E4, E5, E6, E7, E8.
  intros H. repeat (apply andb_prop in H; destruct H as [H ?]).
  repeat match goal with
         | H : Ascii.eqb _ _ = true |- _ => apply Ascii.eqb_eq in H; subst
         | H : (_ <=? _)%N = true |- _ => apply N.leb_le in H
         end.
  unfold PyStr.gtb. simpl String.compare. unfold Ascii.compare.
  change (N_of_ascii "9") with 57%N. change (N_of_ascii "-") with 45%N.
  change (N_of_ascii "1") with 49%N. change (N_of_ascii "2") with 50%N.
  change (N_of_ascii "3") with 51%N.
  repeat match goal with
         | |- context [N.compare ?x ?y] =>
             destruct (N.compare_spec x y); try reflexivity; try lia
         end.
Qed.

(** C9: with no cutoff, no transaction is skipped on account of its
    date. For every ledger whose dates are calendar days written
    YYYY-MM-DD (or are missing or empty, or any string not after the
    sentinel "9999-12-31" in lexicographic order), replay runs the body
    of the loop on every transaction. *)
Theorem replay_no_cutoff_applies_all :
  forall (cash0 : Z) (txs : list transaction),
    (forall tx d, In tx txs -> tx_date tx = Some d ->
       d = EmptyString \/ PyStr.gtb d "9999-12-31" = false
       \/ iso_calendar_day d = true) ->
    compute_holdings_and_cash (ledger cash0 txs) None
    = apply_all (PyDict.empty, cash0) txs.
Proof.
  intros cash0 txs H.
  unfold compute_holdings_and_cash, replay_from, apply_all. simpl.
  generalize (@PyDict.empty Z, cash0).
  induction txs as [|tx txs IH]; intros st; simpl; [reflexivity|].
  rewrite IH by (intros; eapply H; eauto; now right).
  f_equal. unfold replay_step.
  replace (after_cut_off "9999-12-31" tx) with false; [reflexivity|].
  unfold after_cut_off. destruct (tx_date tx) as [d|] eqn:Ed; [|reflexivity].
  destruct (H tx d (or_introl eq_refl) Ed) as [->|[Hd|Hd]]; [reflexivity| |].
  - rewrite Hd. now rewrite andb_false_r.
  - rewrite (iso_calendar_day_not_after_sentinel d Hd). now rewrite andb_false_r.
Qed.

Lemma replay_no_cutoff_applies_all_witness :
  compute_holdings_and_cash
    (ledger 1000000
       [ {| tx_date := Some "2024-01-15"%string;
            tx_ticker := Some "AAPL"%string; tx_type := Some "BUY"%string;
            tx_shares := Some 100; tx_priceCents := Some 15000 |} ]) None
  = ([("AAPL"%string, 100)], -500000).
Proof.
  apply (replay_no_cutoff_applies_all 1000000
    [ {| tx_date := Some "2024-01-15"%string;
         tx_ticker := Some "AAPL"%string; tx_type := Some "BUY"%string;
         tx_shares := Some 100; tx_priceCents := Some 15000 |} ]).
  intros tx d [<-|[]] E. inversion E; subst.
  right; right. reflexivity.
Defined.

(** Outside the data model, where a date is not a calendar day: a date
    string after "9999-12-31" in lexicographic order is compared with the
    sentinel like any other and the transaction is skipped. *)
Lemma replay_no_cutoff_skips_late_strings :
  compute_holdings_and_cash
    (ledger 1000
       [ {| tx_date := Some "9999-12-31T00:00:00"%string;
            tx_ticker := Some "XYZ"%string; tx_type := Some "BUY"%string;
            tx_shares := Some 1; tx_priceCents := Some 100 |} ]) None
  = (PyDict.empty, 1000)
  /\ compute_holdings_and_cash
       (ledger 1000
          [ {| tx_date := Some "9999-12-31T00:00:00"%string;
               tx_ticker := Some "XYZ"%string; tx_type := Some "BUY"%string;
               tx_shares := Some 1; tx_priceCents := Some 100 |} ]) None
     <> apply_all (PyDict.empty, 1000)
          [ {| tx_date := Some "9999-12-31T00:00:00"%string;
               tx_ticker := Some "XYZ"%string; tx_type := Some "BUY"%string;
               tx_shares := Some 1; tx_priceCents := Some 100 |} ]
  /\ compute_holdings_and_cash
       (ledger 1000
          [ {| tx_date := Some "Jan 5 2024"%string;
               tx_ticker := Some "XYZ"%string; tx_type := Some "BUY"%string;
               tx_shares := Some 1; tx_priceCents := Some 100 |} ]) None
     <> apply_all (PyDict.empty, 1000)
          [ {| tx_date := Some "Jan 5 2024"%string;
               tx_ticker := Some "XYZ"%string; tx_type := Some "BUY"%string;
               tx_shares := Some 1; tx_priceCents := Some 100 |} ].
Proof.
  split; [vm_compute; reflexivity|].
  split; vm_compute; discriminate.
Qed.

(** ** Signs of float results *)

Lemma binary_round_aux_sign s m e l :
  has_sign s (binary_round_aux PyFloat.prec PyFloat.emax s m e l).
Proof.
  unfold binary_round_aux.
  destruct (shr_fexp _ _ m e l) as [mrs' e'].
  destruct (shr_fexp _ _ _ e' loc_Exact) as [mrs'' e''].
  destruct (shr_m mrs''); simpl; auto.
  destruct (Z.leb _ _); simpl; auto.
Qed.

Lemma binary_round_sign s m e :
  has_sign s (binary_round PyFloat.prec PyFloat.emax s m e).
Proof.
  unfold binary_round. destruct (shl_align _ _ _) as [mz ez].
  apply binary_round_aux_sign.
Qed.

Lemma of_int_pos_sign n x :
  0 < n -> PyFloat.of_int n = Ok x -> has_sign false x.
Proof.
  unfold PyFloat.of_int. destruct n as [|p|p]; try lia. intros _.
  simpl binary_normalize.
  pose proof (binary_round_sign false p 0) as H.
  destruct (PyFloat.is_finite _); [|discriminate].
  intros E. inversion E. now subst.
Qed.

Lemma abs_sign x : has_sign false (PyFloat.abs x).
Proof. now destruct x. Qed.

Lemma SFdiv_sign x y :
  has_sign false x -> has_sign false y ->
  has_sign false (SFdiv PyFloat.prec PyFloat.emax x y).
Proof.
  destruct x as [sx|sx| |sx mx ex], y as [sy|sy| |sy my ey]; simpl;
    intros Hx Hy; subst; auto.
  destruct (SFdiv_core_binary _ _ _ _ _ _) as [[mz ez] lz].
  apply binary_round_aux_sign.
Qed.

Lemma floor_nonneg x z :
  has_sign false x -> PyFloat.floor x = Ok z -> 0 <= z.
Proof.
  destruct x as [s|s| |s m e]; simpl; intros Hs E; try discriminate.
  - inversion E. lia.
  - subst s. inversion E. unfold PyFloat.scale_floor. simpl cond_Zopp.
    apply Z.shiftl_nonneg. lia.
Qed.

(** With a positive price, the share count at the boundary is not
    negative. *)
Lemma desired_abs_shares_nonneg target price desired d :
  0 <= price ->
  PyFloat.div_int (PyFloat.abs target) price = Ok desired ->
  PyFloat.floor desired = Ok d ->
  0 <= d.
Proof.
  unfold PyFloat.div_int. intros Hp.
  destruct (PyFloat.of_int price) as [y|] eqn:Ey; simpl; [|discriminate].
  destruct (Z.eqb_spec price 0) as [|Hne]; [discriminate|].
  intros E. inversion E; subst desired. apply floor_nonneg.
  apply SFdiv_sign; [apply abs_sign|].
  apply (of_int_pos_sign price); [lia|assumption].
Qed.

(** ** The weight calculator *)



Lemma compute_weights_ok holdings cash live_prices weights nav pnav :
  compute_weights holdings cash live_prices = Ok (weights, nav, pnav) ->
  nav = total_nav holdings cash live_prices /\ 0 < nav.
Proof.
  unfold compute_weights, total_nav.
  destruct (Z.leb_spec (positions_nav holdings live_prices + cash) 0);
    [discriminate|].
  destruct (for_each _ _ _); simpl; [|discriminate].
  intros E; inversion E; subst. split; [reflexivity|assumption].
Qed.



(** ** The trade builder *)

(** C4, Scenario B: one position of 100 AAPL at 20000, no cash, ceiling
    0.15. The boundary NAV is 300000, the share count at the boundary is
    15, and the one proposal is SELL 85 AAPL at 20000. *)
Theorem scenario_B_sell_85 :
  (boundary <- PyFloat.mul_int PyFloat.lit_0_15
                 (total_nav [("AAPL"%string, 100)] 0 [("AAPL"%string, 20000)]) ;;
   PyFloat.to_int boundary) = Ok 300000
  /\ (target <- PyFloat.copysign_int 300000 (20000 * 100) ;;
      desired <- PyFloat.div_int (PyFloat.abs target) 20000 ;;
      PyFloat.floor desired) = Ok 15
  /\ build_rebalance_trades [("AAPL"%string, 100)] 0 [("AAPL"%string, 20000)]
       PyFloat.lit_0_15
     = Ok [ {| tr_ticker := "AAPL";
               tr_type := "SELL";
               tr_shares := 85;
               tr_priceCents := 20000;
               tr_oldWeight := PyFloat.lit_1_0;
               tr_targetAbsWeight := PyFloat.lit_0_15 |} ].
Proof. repeat split; vm_compute; reflexivity. Qed.

Lemma trade_step_skips live_prices max_abs_weight weights nav trades ticker n :
  (n <> 0 -> forall price, PyDict.lookup live_prices ticker = Some price ->
     PyFloat.leb (PyFloat.abs (PyDict.get weights ticker PyFloat.zero))
       max_abs_weight = true) ->
  trade_step live_prices max_abs_weight weights nav trades (ticker, n)
  = Ok trades.
Proof.
  intros H. unfold trade_step.
  destruct (Z.eqb_spec n 0) as [|Hn]; [reflexivity|].
  destruct (PyDict.lookup live_prices ticker) as [price|]; [|reflexivity].
  now rewrite (H Hn price eq_refl).
Qed.

Lemma trade_loop_skips live_prices max_abs_weight weights nav items :
  forall trades,
    (forall ticker n price,
       In (ticker, n) items -> n <> 0 ->
       PyDict.lookup live_prices ticker = Some price ->
       PyFloat.leb (PyFloat.abs (PyDict.get weights ticker PyFloat.zero))
         max_abs_weight = true) ->
    for_each (trade_step live_prices max_abs_weight weights nav) items trades
    = Ok trades.
Proof.
  induction items as [|[ticker n] items IH]; intros trades Hall;
    cbn [for_each]; [reflexivity|].
  rewrite trade_step_skips; cbn [bind].
  - apply IH. intros; eapply Hall; eauto. now right.
  - intros Hn price Hp. eapply Hall; eauto. now left.
Qed.

(** C5: when weights can be computed (total NAV is positive) and every
    ticker with nonzero holdings and a known price has an absolute weight
    of at most [max_abs_weight], no trade is proposed. *)
Theorem no_trade_within_limit :
  forall (holdings : holdings_t) (cash_cents : Z) (live_prices : prices_t)
         (max_abs_weight : PyFloat.float)
         (weights : weights_t) (nav pnav : Z),
    compute_weights holdings cash_cents live_prices = Ok (weights, nav, pnav) ->
    (forall ticker n price,
       In (ticker, n) (PyDict.items holdings) -> n <> 0 ->
       PyDict.lookup live_prices ticker = Some price ->
       PyFloat.leb (PyFloat.abs (PyDict.get weights ticker PyFloat.zero))
         max_abs_weight = true) ->
    0 < total_nav holdings cash_cents live_prices
    /\ build_rebalance_trades holdings cash_cents live_prices max_abs_weight
       = Ok [].
Proof.
  intros holdings cash live_prices m weights nav pnav Hw Hall.
  split; [apply compute_weights_ok in Hw; destruct Hw; now subst|].
  unfold build_rebalance_trades. rewrite Hw. simpl.
  now apply trade_loop_skips.
Qed.

Lemma no_trade_within_limit_witness :
  0 < total_nav [("AAPL"%string, 10); ("MSFT"%string, 5)] 1000000
        [("AAPL"%string, 20000); ("MSFT"%string, 30000)]
  /\ build_rebalance_trades [("AAPL"%string, 10); ("MSFT"%string, 5)] 1000000
       [("AAPL"%string, 20000); ("MSFT"%string, 30000)] PyFloat.lit_0_15
     = Ok [].
Proof.
  eapply (no_trade_within_limit [("AAPL"%string, 10); ("MSFT"%string, 5)]
            1000000 [("AAPL"%string, 20000); ("MSFT"%string, 30000)]
            PyFloat.lit_0_15).
  - vm_compute. reflexivity.
  - intros ticker n price [H|[H|[]]] _ _; inversion H; subst;
      vm_compute; reflexivity.
Defined.

Lemma trade_step_inv live_prices max_abs_weight weights nav trades ticker n
    trades' :
  prices_nonneg live_prices ->
  trade_step live_prices max_abs_weight weights nav trades (ticker, n)
  = Ok trades' ->
  trades' = trades
  \/ exists t, trades' = trades ++ [t] /\ tr_ticker t = ticker /\ trims n t.
Proof.
  intros Hp. unfold trade_step.
  destruct (Z.eqb_spec n 0) as [|Hn]; [intros E; inversion E; auto|].
  destruct (PyDict.lookup live_prices ticker) as [price|] eqn:Eprice;
    [|intros E; inversion E; auto].
  destruct (PyFloat.leb _ _); [intros E; inversion E; auto|].
  destruct (PyFloat.mul_int _ _) as [boundary|]; simpl; [|discriminate].
  destruct (PyFloat.to_int _) as [boundary_cents|]; simpl; [|discriminate].
  destruct (PyFloat.copysign_int _ _) as [target|]; simpl;
    [|discriminate].
  destruct (PyFloat.div_int _ _) as [desired|] eqn:Ediv; simpl;
    [|discriminate].
  destruct (PyFloat.floor _) as [d|] eqn:Efloor; simpl; [|discriminate].
  pose proof (desired_abs_shares_nonneg _ _ _ _ (Hp _ _ Eprice) Ediv Efloor)
    as Hd.
  destruct (Z.geb_spec d (Z.abs n)); [intros E; inversion E; auto|].
  destruct (Z.leb_spec (Z.abs n - d) 0); [intros E; inversion E; auto|].
  intros E; inversion E; subst. right. eexists.
  split; [reflexivity|]. split; [reflexivity|].
  unfold trims. simpl. repeat split; auto; lia.
Qed.

Lemma trade_loop_inv live_prices max_abs_weight weights nav items :
  prices_nonneg live_prices ->
  forall trades trades',
    for_each (trade_step live_prices max_abs_weight weights nav) items trades
    = Ok trades' ->
    forall t, In t trades' ->
      In t trades \/ exists n, In (tr_ticker t, n) items /\ trims n t.
Proof.
  intros Hp. induction items as [|[ticker n] items IH];
    intros trades trades'; cbn [for_each].
  - intros E; inversion E; auto.
  - destruct (trade_step _ _ _ _ _ _) as [trades1|] eqn:Estep; cbn [bind];
      [|discriminate].
    intros Hloop t Hin.
    destruct (IH _ _ Hloop t Hin) as [Hin1|(n' & Hin' & Ht)].
    + apply (trade_step_inv _ _ _ _ _ _ _ _ Hp) in Estep.
      destruct Estep as [->|(t' & -> & Hticker & Ht')]; [auto|].
      apply in_app_or in Hin1. destruct Hin1 as [|[->|[]]]; [auto|].
      right. exists n. split; [left; now rewrite Hticker|assumption].
    + right. exists n'. split; [now right|assumption].
Qed.

(** C7, as the code has it: with no negative price in the price map,
    every proposed trade is a SELL for a positive net share count and a
    BUY for a negative one, and its share quantity is positive and at most
    the absolute share count. The position it leaves is strictly smaller
    in magnitude and never of the opposite sign; it can be zero. *)
Theorem trades_trim_toward_zero :
  forall (holdings : holdings_t) (cash_cents : Z) (live_prices : prices_t)
         (max_abs_weight : PyFloat.float) (trades : list trade),
    PyDict.wf holdings ->
    prices_nonneg live_prices ->
    build_rebalance_trades holdings cash_cents live_prices max_abs_weight
    = Ok trades ->
    forall t, In t trades ->
      let n := PyDict.get holdings (tr_ticker t) 0 in
      (0 < n -> tr_type t = "SELL"%string)
      /\ (n < 0 -> tr_type t = "BUY"%string)
      /\ n <> 0
      /\ 0 < tr_shares t <= Z.abs n
      /\ Z.abs (position_after n t) < Z.abs n
      /\ 0 <= n * position_after n t.
Proof.
  intros holdings cash live_prices m trades Hwf Hp Hb t Hin n.
  unfold build_rebalance_trades in Hb.
  destruct (compute_weights _ _ _) as [[[weights nav] pnav]|]; simpl in Hb;
    [|discriminate].
  destruct (trade_loop_inv _ _ _ _ _ Hp _ _ Hb t Hin)
    as [[]|(n' & Hin' & Hn0 & Htype & Hshares)].
  assert (n = n') as ->.
  { unfold n, PyDict.get. now rewrite (in_lookup _ _ _ Hwf Hin'). }
  unfold position_after. rewrite Htype.
  destruct (Z.gtb_spec n' 0); simpl; repeat split; try lia; try nia.
Qed.

Lemma trades_trim_toward_zero_witness :
  let t := {| tr_ticker := "AAPL"; tr_type := "SELL"; tr_shares := 85;
              tr_priceCents := 20000; tr_oldWeight := PyFloat.lit_1_0;
              tr_targetAbsWeight := PyFloat.lit_0_15 |} in
  let n := PyDict.get [("AAPL"%string, 100)] (tr_ticker t) 0 in
  (0 < n -> tr_type t = "SELL"%string)
  /\ (n < 0 -> tr_type t = "BUY"%string)
  /\ n <> 0
  /\ 0 < tr_shares t <= Z.abs n
  /\ Z.abs (position_after n t) < Z.abs n
  /\ 0 <= n * position_after n t.
Proof.
  apply (trades_trim_toward_zero [("AAPL"%string, 100)] 0
           [("AAPL"%string, 20000)] PyFloat.lit_0_15
           [ {| tr_ticker := "AAPL"; tr_type := "SELL"; tr_shares := 85;
                tr_priceCents := 20000; tr_oldWeight := PyFloat.lit_1_0;
                tr_targetAbsWeight := PyFloat.lit_0_15 |} ]).
  - repeat constructor. simpl. tauto.
  - intros ticker price. cbn [PyDict.lookup].
    destruct (String.eqb "AAPL" ticker); [|discriminate].
    intros E; inversion E. lia.
  - vm_compute. reflexivity.
  - left. reflexivity.
Defined.

(** C7 as stated fails: a position of one share over the ceiling is sold
    whole, so the quantity equals the absolute share count. *)
Lemma trade_can_close_position :
  exists t,
    build_rebalance_trades [("AAPL"%string, 1)] 0 [("AAPL"%string, 20000)]
      PyFloat.lit_0_15 = Ok [t]
    /\ ~ tr_shares t < Z.abs (PyDict.get [("AAPL"%string, 1)] (tr_ticker t) 0).
Proof.
  eexists. split; [vm_compute; reflexivity|]. vm_compute. discriminate.
Qed.

(** ** The ceiling after a trim *)

(** C1 at holdings {A: 6}, cash 0, price 1 and ceiling
    0.8333333333333333: the product [max_abs_weight * total_nav_cents]
    rounds up to 5.0, the trade is SELL 1, and the weight recomputed after
    the trade, 5/6 = 0.8333333333333334, is above the ceiling. *)
Theorem trim_leaves_weight_above_ceiling :
  exists t holdings' cash' weights nav pnav,
    build_rebalance_trades [("A"%string, 6)] 0 [("A"%string, 1)]
      below_five_sixths = Ok [t]
    /\ (tr_type t, tr_shares t, tr_priceCents t) = ("SELL"%string, 1, 1)
    /\ apply_tx ([("A"%string, 6)], 0) (tx_of_trade "2026-01-01" t)
       = (holdings', cash')
    /\ compute_weights holdings' cash' [("A"%string, 1)]
       = Ok (weights, nav, pnav)
    /\ PyFloat.leb (PyFloat.abs (PyDict.get weights "A" PyFloat.zero))
         below_five_sixths = false.
Proof.
  do 6 eexists.
  split; [vm_compute; reflexivity|].
  split; [reflexivity|].
  split; [vm_compute; reflexivity|].
  split; [vm_compute; reflexivity|].
  vm_compute. reflexivity.
Qed.

(** * Further properties *)

(** ** Replay as a fold of effects *)

Lemma replay_step_applied cut_off st tx :
  replay_step cut_off st tx = apply_effect st (applied cut_off tx).
Proof.
  unfold replay_step, applied.
  destruct (after_cut_off cut_off tx); [reflexivity|apply apply_tx_effect].
Qed.

Lemma replay_from_effects cut_off txs : forall st,
  replay_from cut_off st txs
  = fold_left apply_effect (map (applied cut_off) txs) st.
Proof.
  induction txs as [|tx txs IH]; intros st; simpl; [reflexivity|].
  rewrite <- replay_step_applied. apply IH.
Qed.

Lemma effects_equiv effs : forall s1 s2,
  state_equiv s1 s2 ->
  state_equiv (fold_left apply_effect effs s1) (fold_left apply_effect effs s2).
Proof.
  induction effs as [|eff effs IH]; intros s1 s2 H; simpl; [exact H|].
  apply IH. now apply apply_effect_equiv.
Qed.

Lemma effects_perm effs1 effs2 :
  Permutation effs1 effs2 ->
  forall st,
    state_equiv (fold_left apply_effect effs1 st)
                (fold_left apply_effect effs2 st).
Proof.
  induction 1 as [|x l1 l2 _ IH|x y l|l1 l2 l3 _ IH1 _ IH2]; intros st; simpl.
  - apply state_equiv_refl.
  - apply IH.
  - apply effects_equiv, apply_effect_comm.
  - eapply state_equiv_trans; [apply IH1|apply IH2].
Qed.

(** The order of the ledger does not matter: under one cutoff, a
    reordered ledger replays to the same holdings and cash. *)
Theorem replay_order_irrelevant :
  forall (cash0 : Z) (txs1 txs2 : list transaction) (as_of : option string),
    Permutation txs1 txs2 ->
    state_equiv (compute_holdings_and_cash (ledger cash0 txs1) as_of)
                (compute_holdings_and_cash (ledger cash0 txs2) as_of).
Proof.
  intros cash0 txs1 txs2 as_of Hperm.
  unfold compute_holdings_and_cash. simpl.
  rewrite !replay_from_effects.
  apply effects_perm. now apply Permutation_map.
Qed.

Lemma effects_net_shares ticker effs : forall st,
  PyDict.get (fst (fold_left apply_effect effs st)) ticker 0
  = PyDict.get (fst st) ticker 0 + net_shares ticker effs.
Proof.
  induction effs as [|eff effs IH]; intros st; simpl; [lia|].
  rewrite IH. destruct eff as [[[k ds] dc]|]; simpl; [|lia].
  destruct (String.eqb_spec k ticker) as [->|Hne].
  - rewrite get_set_same. lia.
  - rewrite get_set_other by assumption. lia.
Qed.

Lemma effects_net_cash effs : forall st,
  snd (fold_left apply_effect effs st) = snd st + net_cash effs.
Proof.
  induction effs as [|eff effs IH]; intros st; simpl; [lia|].
  rewrite IH. destruct eff as [[[k ds] dc]|]; simpl; lia.
Qed.

(** Replay nets out: a ticker's share count is the sum of the signed
    share changes of the transactions replay applies to it, and cash is
    the starting cash plus their signed amounts. *)
Theorem replay_nets_out :
  forall (cash0 : Z) (txs : list transaction) (as_of : option string)
         (ticker : string),
    let effs := map (applied (cut_off_of as_of)) txs in
    let st := compute_holdings_and_cash (ledger cash0 txs) as_of in
    PyDict.get (fst st) ticker 0 = net_shares ticker effs
    /\ snd st = cash0 + net_cash effs.
Proof.
  intros cash0 txs as_of ticker effs st. unfold st, effs.
  unfold compute_holdings_and_cash. simpl.
  rewrite replay_from_effects. split.
  - now rewrite effects_net_shares.
  - now rewrite effects_net_cash.
Qed.

Lemma lookup_set_none {V : Type} (d : PyDict.dict V) k v k' :
  PyDict.lookup (PyDict.set d k v) k' = None
  <-> k <> k' /\ PyDict.lookup d k' = None.
Proof.
  destruct (String.eqb_spec k k') as [->|Hne].
  - rewrite lookup_set_same. split; [discriminate|tauto].
  - rewrite lookup_set_other by assumption. tauto.
Qed.

Lemma effects_keys ticker effs : forall st,
  PyDict.lookup (fst (fold_left apply_effect effs st)) ticker <> None
  <-> PyDict.lookup (fst st) ticker <> None
      \/ exists eff, In eff effs /\ names_ticker ticker eff.
Proof.
  induction effs as [|eff effs IH]; intros st; simpl.
  - split; [auto|]. intros [H|(eff & [] & _)]. exact H.
  - rewrite IH. destruct eff as [[[k ds] dc]|]; simpl.
    + rewrite lookup_set_none. split.
      * intros [H|(eff & Hin & Hn)].
        -- destruct (String.eqb_spec k ticker) as [->|Hne].
           ++ right. eexists. split; [left; reflexivity|].
              now exists ds, dc.
           ++ left. tauto.
        -- right. eauto.
      * intros [H|(eff & [<-|Hin] & Hn)].
        -- left. tauto.
        -- destruct Hn as (ds' & dc' & E). inversion E; subst. left. tauto.
        -- right. eauto.
    + split.
      * intros [H|(eff & Hin & Hn)]; [auto|right; eauto].
      * intros [H|(eff & [<-|Hin] & Hn)]; [auto| |right; eauto].
        destruct Hn as (? & ? & E). discriminate.
Qed.

Lemma tx_effect_ticker tx k ds dc :
  tx_effect tx = Some (k, ds, dc) ->
  k = or_empty (tx_ticker tx) /\ k <> EmptyString /\ ds <> 0
  /\ 0 <= get_or (tx_priceCents tx) 0
  /\ (ds = get_or (tx_shares tx) 0 /\ dc = - (ds * get_or (tx_priceCents tx) 0)
      \/ ds = - get_or (tx_shares tx) 0
         /\ dc = - (ds * get_or (tx_priceCents tx) 0)).
Proof.
  unfold tx_effect, malformed.
  destruct (PyStr.truthy (or_empty (tx_ticker tx))) eqn:Et; simpl;
    [|discriminate].
  destruct (Z.leb_spec (get_or (tx_shares tx) 0) 0); simpl; [discriminate|].
  destruct (Z.ltb_spec (get_or (tx_priceCents tx) 0) 0); simpl;
    [discriminate|].
  assert (Hk : or_empty (tx_ticker tx) <> EmptyString).
  { intros E. rewrite E in Et. discriminate. }
  destruct (String.eqb _ "BUY").
  - intros E; inversion E; subst. repeat split; auto; try lia.
  - destruct (String.eqb _ "SELL"); [|discriminate].
    intros E; inversion E; subst. repeat split; auto; try lia.
Qed.

(** The tickers of the holdings are those of the transactions replay
    applies: a ticker is a key exactly when some applied BUY or SELL names
    it, it stays a key when its count returns to zero, and it is never the
    empty string. *)
Theorem replay_holdings_keys :
  forall (cash0 : Z) (txs : list transaction) (as_of : option string)
         (ticker : string),
    let holdings := fst (compute_holdings_and_cash (ledger cash0 txs) as_of) in
    (PyDict.lookup holdings ticker <> None
     <-> exists tx, In tx txs
           /\ names_ticker ticker (applied (cut_off_of as_of) tx))
    /\ (PyDict.lookup holdings ticker <> None -> ticker <> EmptyString).
Proof.
  intros cash0 txs as_of ticker holdings.
  assert (Hiff : PyDict.lookup holdings ticker <> None
     <-> exists tx, In tx txs
           /\ names_ticker ticker (applied (cut_off_of as_of) tx)).
  { unfold holdings, compute_holdings_and_cash. simpl.
    rewrite replay_from_effects, effects_keys. simpl. split.
    - intros [H|(eff & Hin & Hn)]; [congruence|].
      apply in_map_iff in Hin. destruct Hin as (tx & <- & Hin). eauto.
    - intros (tx & Hin & Hn). right. eexists. split; [|exact Hn].
      now apply in_map. }
  split; [exact Hiff|].
  intros H. apply Hiff in H. destruct H as (tx & _ & ds & dc & E).
  unfold applied in E. destruct (after_cut_off _ _); [discriminate|].
  now apply tx_effect_ticker in E.
Qed.

Lemma replay_order_irrelevant_witness :
  state_equiv
    (compute_holdings_and_cash
       (ledger 1000
          [ {| tx_date := Some "2024-01-02"%string;
               tx_ticker := Some "AAA"%string; tx_type := Some "BUY"%string;
               tx_shares := Some 2; tx_priceCents := Some 100 |};
            {| tx_date := Some "2024-01-03"%string;
               tx_ticker := Some "BBB"%string; tx_type := Some "SELL"%string;
               tx_shares := Some 1; tx_priceCents := Some 50 |} ]) None)
    (compute_holdings_and_cash
       (ledger 1000
          [ {| tx_date := Some "2024-01-03"%string;
               tx_ticker := Some "BBB"%string; tx_type := Some "SELL"%string;
               tx_shares := Some 1; tx_priceCents := Some 50 |};
            {| tx_date := Some "2024-01-02"%string;
               tx_ticker := Some "AAA"%string; tx_type := Some "BUY"%string;
               tx_shares := Some 2; tx_priceCents := Some 100 |} ]) None).
Proof.
  apply replay_order_irrelevant. apply perm_swap.
Defined.

Lemma replay_holdings_keys_witness :
  "XYZ"%string <> EmptyString.
Proof.
  apply (proj2 (replay_holdings_keys 0
    [ {| tx_date := Some "2024-01-02"%string; tx_ticker := Some "XYZ"%string;
         tx_type := Some "BUY"%string; tx_shares := Some 10;
         tx_priceCents := Some 100 |};
      {| tx_date := Some "2024-01-03"%string; tx_ticker := Some "XYZ"%string;
         tx_type := Some "SELL"%string; tx_shares := Some 10;
         tx_priceCents := Some 100 |} ] None "XYZ")).
  vm_compute. discriminate.
Defined.

(** ** NAV under a transaction *)

Lemma nav_fold_acc live_prices items : forall acc,
  fold_left (nav_step live_prices) items acc
  = acc + fold_left (nav_step live_prices) items 0.
Proof.
  induction items as [|[k n] items IH]; intros acc; cbn [fold_left]; [lia|].
  rewrite IH. rewrite (IH (nav_step live_prices 0 (k, n))).
  unfold nav_step. destruct (PyDict.lookup live_prices k); lia.
Qed.

Lemma positions_nav_cons k n holdings live_prices :
  positions_nav ((k, n) :: holdings) live_prices
  = match PyDict.lookup live_prices k with
    | Some price => price * n
    | None => 0
    end + positions_nav holdings live_prices.
Proof.
  unfold positions_nav, PyDict.items. simpl. rewrite nav_fold_acc.
  destruct (PyDict.lookup live_prices k); lia.
Qed.

Lemma positions_nav_set holdings live_prices k v :
  positions_nav (PyDict.set holdings k v) live_prices
  = positions_nav holdings live_prices
    + match PyDict.lookup live_prices k with
      | Some price => price * (v - PyDict.get holdings k 0)
      | None => 0
      end.
Proof.
  induction holdings as [|[k0 n0] holdings IH]; simpl.
  - rewrite positions_nav_cons. unfold positions_nav, PyDict.get. simpl.
    destruct (PyDict.lookup live_prices k); lia.
  - unfold PyDict.get. simpl.
    destruct (String.eqb_spec k0 k) as [->|Hne].
    + rewrite !positions_nav_cons.
      destruct (PyDict.lookup live_prices k); lia.
    + rewrite !positions_nav_cons, IH. unfold PyDict.get.
      destruct (PyDict.lookup live_prices k0),
               (PyDict.lookup live_prices k); lia.
Qed.

Lemma total_nav_effect st live_prices eff :
  total_nav (fst (apply_effect st eff)) (snd (apply_effect st eff)) live_prices
  = total_nav (fst st) (snd st) live_prices
    + match eff with
      | Some (k, dshares, dcash) =>
          match PyDict.lookup live_prices k with
          | Some price => price * dshares + dcash
          | None => dcash
          end
      | None => 0
      end.
Proof.
  destruct eff as [[[k ds] dc]|]; simpl; [|lia].
  unfold total_nav. rewrite positions_nav_set.
  destruct (PyDict.lookup live_prices k); lia.
Qed.

(** A transaction at the live price leaves total NAV as it was: what
    cash loses the position gains. For a ticker without a live price the
    position counts for nothing, and NAV moves by the cash amount. *)
Theorem transaction_at_live_price_keeps_nav :
  forall (holdings : holdings_t) (cash : Z) (live_prices : prices_t)
         (tx : transaction),
    let after := apply_tx (holdings, cash) tx in
    (PyDict.lookup live_prices (or_empty (tx_ticker tx))
     = Some (get_or (tx_priceCents tx) 0) ->
     total_nav (fst after) (snd after) live_prices
     = total_nav holdings cash live_prices)
    /\ (PyDict.lookup live_prices (or_empty (tx_ticker tx)) = None ->
        total_nav (fst after) (snd after) live_prices
        = total_nav holdings cash live_prices + (snd after - cash)).
Proof.
  intros holdings cash live_prices tx after. unfold after.
  rewrite apply_tx_effect.
  pose proof (total_nav_effect (holdings, cash) live_prices (tx_effect tx))
    as H.
  pose proof (effects_net_cash [tx_effect tx] (holdings, cash)) as Hc.
  simpl in H, Hc. rewrite H, Hc. clear H Hc.
  destruct (tx_effect tx) as [[[k ds] dc]|] eqn:E; simpl; [|split; lia].
  apply tx_effect_ticker in E. destruct E as (-> & _ & _ & _ & E).
  split; intros ->; lia.
Qed.

Lemma transaction_at_live_price_keeps_nav_witness :
  total_nav
    (fst (apply_tx ([("AAPL"%string, 100)], 0)
            {| tx_date := None; tx_ticker := Some "AAPL"%string;
               tx_type := Some "SELL"%string; tx_shares := Some 85;
               tx_priceCents := Some 20000 |}))
    (snd (apply_tx ([("AAPL"%string, 100)], 0)
            {| tx_date := None; tx_ticker := Some "AAPL"%string;
               tx_type := Some "SELL"%string; tx_shares := Some 85;
               tx_priceCents := Some 20000 |}))
    [("AAPL"%string, 20000)]
  = total_nav [("AAPL"%string, 100)] 0 [("AAPL"%string, 20000)].
Proof.
  apply (proj1 (transaction_at_live_price_keeps_nav [("AAPL"%string, 100)] 0
    [("AAPL"%string, 20000)]
    {| tx_date := None; tx_ticker := Some "AAPL"%string;
       tx_type := Some "SELL"%string; tx_shares := Some 85;
       tx_priceCents := Some 20000 |})).
  reflexivity.
Defined.

(** ** The weights dict *)

Lemma int_truediv_finite_sign a b w :
  0 < b -> PyFloat.int_truediv a b = Ok w ->
  PyFloat.is_finite w = true /\ PyFloat.sign_bit w = (a <? 0).
Proof.
  intros Hb. unfold PyFloat.int_truediv.
  destruct (Z.eqb_spec b 0); [lia|].
  replace (b <? 0) with false by (symmetry; apply Z.ltb_ge; lia).
  destruct (Z.eqb_spec a 0) as [->|Ha].
  - intros E; inversion E; subst. now split.
  - destruct (SFdiv_core_binary _ _ _ _ _ _) as [[q e] l].
    rewrite xorb_false_r.
    pose proof (binary_round_aux_sign (a <? 0) q e l) as Hs.
    destruct (binary_round_aux _ _ _ _ _ _) as [s|s| |s m e'];
      simpl; try discriminate; intros E; inversion E; subst; simpl in *;
      now split.
Qed.

Lemma weight_loop_lookup live_prices nav items : forall weights0 weights,
  NoDup (map fst items) ->
  for_each (weight_step live_prices nav) items weights0 = Ok weights ->
  forall k,
    (forall n price,
       In (k, n) items -> PyDict.lookup live_prices k = Some price ->
       exists w, PyFloat.int_truediv (price * n) nav = Ok w
                 /\ PyDict.lookup weights k = Some w)
    /\ (~ In k (map fst items) \/ PyDict.lookup live_prices k = None ->
        PyDict.lookup weights k = PyDict.lookup weights0 k).
Proof.
  induction items as [|[k0 n0] items IH]; intros weights0 weights Hnd;
    cbn [for_each].
  - intros E; inversion E; subst. intros k. split; [intros ? ? []|auto].
  - inversion Hnd as [|? ? Hnotin Hnd']; subst. simpl in Hnotin.
    unfold weight_step at 1.
    destruct (PyDict.lookup live_prices k0) as [price0|] eqn:Ep0; cbn [bind].
    + destruct (PyFloat.int_truediv (price0 * n0) nav) as [w0|] eqn:Ew0;
        cbn [bind]; [|discriminate].
      intros Hloop k. destruct (IH _ _ Hnd' Hloop k) as [IHin IHout].
      split.
      * intros n price [E|Hin] Hp.
        -- inversion E; subst. exists w0.
           assert (price = price0) by congruence. subst. split; [assumption|].
           rewrite IHout by (left; assumption). apply lookup_set_same.
        -- now apply IHin.
      * intros [Hnotin'|Hp].
        -- simpl in Hnotin'. rewrite IHout by (left; tauto).
           apply lookup_set_other. tauto.
        -- rewrite IHout by (right; assumption).
           apply lookup_set_other. congruence.
    + intros Hloop k. destruct (IH _ _ Hnd' Hloop k) as [IHin IHout].
      split.
      * intros n price [E|Hin] Hp; [inversion E; subst; congruence|].
        now apply IHin.
      * intros [Hnotin'|Hp].
        -- simpl in Hnotin'. apply IHout. left. tauto.
        -- apply IHout. now right.
Qed.

Lemma lookup_not_in {V : Type} (d : PyDict.dict V) k :
  PyDict.lookup d k = None -> ~ In k (PyDict.keys d).
Proof.
  unfold PyDict.keys. induction d as [|[k0 v0] d IH]; simpl; [tauto|].
  destruct (String.eqb_spec k0 k) as [->|Hne]; [discriminate|].
  intros H [E|Hin]; [congruence|]. now apply IH.
Qed.

(** The weights dict has an entry exactly for the held tickers that
    have a live price; a ticker without a price gets no weight. Each
    weight is a finite float, the rounded quotient of position NAV by
    total NAV, with the sign bit set exactly when the position NAV is
    negative. *)
Theorem weights_cover_priced_holdings :
  forall (holdings : holdings_t) (cash_cents : Z) (live_prices : prices_t)
         (weights : weights_t) (nav pnav : Z) (ticker : string),
    PyDict.wf holdings ->
    compute_weights holdings cash_cents live_prices = Ok (weights, nav, pnav) ->
    match PyDict.lookup holdings ticker, PyDict.lookup live_prices ticker with
    | Some n, Some price =>
        exists w,
          PyDict.lookup weights ticker = Some w
          /\ PyFloat.int_truediv (price * n) nav = Ok w
          /\ PyFloat.is_finite w = true
          /\ PyFloat.sign_bit w = (price * n <? 0)
    | _, _ => PyDict.lookup weights ticker = None
    end.
Proof.
  intros holdings cash live_prices weights nav pnav ticker Hwf Hw.
  pose proof (compute_weights_ok _ _ _ _ _ _ Hw) as [_ Hnav].
  unfold compute_weights in Hw.
  destruct (_ <=? 0); [discriminate|].
  destruct (for_each _ _ _) as [ws|] eqn:Eloop; simpl in Hw; [|discriminate].
  inversion Hw; subst. clear Hw.
  destruct (weight_loop_lookup _ _ _ _ _ Hwf Eloop ticker) as [Hin Hout].
  destruct (PyDict.lookup holdings ticker) as [n|] eqn:Eh.
  - destruct (PyDict.lookup live_prices ticker) as [price|] eqn:Ep.
    + destruct (Hin n price (lookup_in _ _ _ Eh) eq_refl) as (w & Hdiv & Hl).
      exists w. destruct (int_truediv_finite_sign _ _ _ Hnav Hdiv).
      repeat split; assumption.
    + now rewrite Hout by (right; reflexivity).
  - assert (PyDict.lookup weights ticker = PyDict.lookup PyDict.empty ticker)
      as -> by (apply Hout; left; now apply lookup_not_in).
    simpl. now destruct (PyDict.lookup live_prices ticker).
Qed.

Lemma weights_cover_priced_holdings_witness :
  exists w,
    PyDict.lookup [("AAPL"%string, PyFloat.lit_1_0)] "AAPL" = Some w
    /\ PyFloat.int_truediv (20000 * 100) 2000000 = Ok w
    /\ PyFloat.is_finite w = true
    /\ PyFloat.sign_bit w = (20000 * 100 <? 0).
Proof.
  exact (weights_cover_priced_holdings [("AAPL"%string, 100)] 0
    [("AAPL"%string, 20000)] [("AAPL"%string, PyFloat.lit_1_0)]
    2000000 2000000 "AAPL"
    (NoDup_cons _ (fun H : In _ [] => H) (NoDup_nil _)) eq_refl).
Defined.

(** ** What a proposal records *)

Lemma trade_step_emits live_prices max_abs_weight weights nav trades ticker n
    trades' :
  trade_step live_prices max_abs_weight weights nav trades (ticker, n)
  = Ok trades' ->
  trades' = trades
  \/ exists t, trades' = trades ++ [t] /\ tr_ticker t = ticker
               /\ quotes live_prices max_abs_weight weights t.
Proof.
  unfold trade_step.
  destruct (n =? 0); [intros E; inversion E; auto|].
  destruct (PyDict.lookup live_prices ticker) as [price|] eqn:Eprice;
    [|intros E; inversion E; auto].
  destruct (PyFloat.leb _ _) eqn:Eleb; [intros E; inversion E; auto|].
  destruct (PyFloat.mul_int _ _) as [boundary|]; simpl; [|discriminate].
  destruct (PyFloat.to_int _) as [boundary_cents|]; simpl; [|discriminate].
  destruct (PyFloat.copysign_int _ _) as [target|]; simpl;
    [|discriminate].
  destruct (PyFloat.div_int _ _) as [desired|] eqn:Ediv; simpl;
    [|discriminate].
  assert (Hprice : price <> 0).
  { unfold PyFloat.div_int in Ediv.
    destruct (PyFloat.of_int price); simpl in Ediv; [|discriminate].
    destruct (Z.eqb_spec price 0); [discriminate|assumption]. }
  destruct (PyFloat.floor _) as [d|]; simpl; [|discriminate].
  destruct (d >=? Z.abs n); [intros E; inversion E; auto|].
  destruct (Z.abs n - d <=? 0); [intros E; inversion E; auto|].
  intros E; inversion E; subst. right. eexists.
  split; [reflexivity|]. split; [reflexivity|].
  unfold quotes. simpl. repeat split; assumption.
Qed.

Lemma trade_loop_emits live_prices max_abs_weight weights nav items :
  forall trades trades',
    for_each (trade_step live_prices max_abs_weight weights nav) items trades
    = Ok trades' ->
    exists new,
      trades' = trades ++ new
      /\ subseq (map tr_ticker new) (map fst items)
      /\ Forall (quotes live_prices max_abs_weight weights) new.
Proof.
  induction items as [|[ticker n] items IH]; intros trades trades';
    cbn [for_each].
  - intros E; inversion E; subst. exists []. rewrite app_nil_r.
    repeat split; constructor.
  - destruct (trade_step _ _ _ _ _ _) as [trades1|] eqn:Estep; cbn [bind];
      [|discriminate].
    intros Hloop. destruct (IH _ _ Hloop) as (new & -> & Hsub & Hall).
    apply trade_step_emits in Estep.
    destruct Estep as [->|(t & -> & Hticker & Ht)].
    + exists new. repeat split; [|assumption]. simpl. now constructor.
    + exists (t :: new). rewrite <- app_assoc. repeat split.
      * simpl. rewrite Hticker. now constructor.
      * now constructor.
Qed.

(** Proposals come in the order of the holdings, at most one for each
    position: the tickers of the proposals are the holdings' tickers with
    some left out. *)
Theorem trades_follow_holdings_order :
  forall (holdings : holdings_t) (cash_cents : Z) (live_prices : prices_t)
         (max_abs_weight : PyFloat.float) (trades : list trade),
    build_rebalance_trades holdings cash_cents live_prices max_abs_weight
    = Ok trades ->
    subseq (map tr_ticker trades) (PyDict.keys holdings).
Proof.
  intros holdings cash live_prices m trades Hb.
  unfold build_rebalance_trades in Hb.
  destruct (compute_weights _ _ _) as [[[weights nav] pnav]|]; simpl in Hb;
    [|discriminate].
  apply trade_loop_emits in Hb. destruct Hb as (new & -> & Hsub & _).
  exact Hsub.
Qed.

Lemma trades_follow_holdings_order_witness :
  subseq
    (map tr_ticker
       [ {| tr_ticker := "AAPL"; tr_type := "SELL"; tr_shares := 85;
            tr_priceCents := 20000; tr_oldWeight := PyFloat.lit_1_0;
            tr_targetAbsWeight := PyFloat.lit_0_15 |} ])
    (PyDict.keys [("AAPL"%string, 100)]).
Proof.
  apply (trades_follow_holdings_order [("AAPL"%string, 100)] 0
           [("AAPL"%string, 20000)] PyFloat.lit_0_15).
  vm_compute. reflexivity.
Defined.

(** A proposal quotes the live price of its ticker, which is not zero,
    and records the position's weight as [compute_weights] gave it and the
    ceiling; that weight is one the test [abs_weight <= max_abs_weight]
    rejected. A ticker without a live price, or with price 0, gets no
    proposal. *)
Theorem trades_quote_live_prices :
  forall (holdings : holdings_t) (cash_cents : Z) (live_prices : prices_t)
         (max_abs_weight : PyFloat.float) (trades : list trade)
         (weights : weights_t) (nav pnav : Z),
    compute_weights holdings cash_cents live_prices = Ok (weights, nav, pnav) ->
    build_rebalance_trades holdings cash_cents live_prices max_abs_weight
    = Ok trades ->
    forall t, In t trades ->
      PyDict.lookup live_prices (tr_ticker t) = Some (tr_priceCents t)
      /\ tr_priceCents t <> 0
      /\ tr_oldWeight t = PyDict.get weights (tr_ticker t) PyFloat.zero
      /\ tr_targetAbsWeight t = max_abs_weight
      /\ PyFloat.leb (PyFloat.abs (tr_oldWeight t)) max_abs_weight = false.
Proof.
  intros holdings cash live_prices m trades weights nav pnav Hw Hb t Hin.
  unfold build_rebalance_trades in Hb. rewrite Hw in Hb. simpl in Hb.
  apply trade_loop_emits in Hb. destruct Hb as (new & -> & _ & Hall).
  rewrite Forall_forall in Hall. exact (Hall t Hin).
Qed.

Lemma trades_quote_live_prices_witness :
  let t := {| tr_ticker := "AAPL"; tr_type := "SELL"; tr_shares := 85;
              tr_priceCents := 20000; tr_oldWeight := PyFloat.lit_1_0;
              tr_targetAbsWeight := PyFloat.lit_0_15 |} in
  PyDict.lookup [("AAPL"%string, 20000)] (tr_ticker t) = Some (tr_priceCents t)
  /\ tr_priceCents t <> 0
  /\ tr_oldWeight t
     = PyDict.get [("AAPL"%string, PyFloat.lit_1_0)] (tr_ticker t) PyFloat.zero
  /\ tr_targetAbsWeight t = PyFloat.lit_0_15
  /\ PyFloat.leb (PyFloat.abs (tr_oldWeight t)) PyFloat.lit_0_15 = false.
Proof.
  apply (trades_quote_live_prices [("AAPL"%string, 100)] 0
           [("AAPL"%string, 20000)] PyFloat.lit_0_15
           [ {| tr_ticker := "AAPL"; tr_type := "SELL"; tr_shares := 85;
                tr_priceCents := 20000; tr_oldWeight := PyFloat.lit_1_0;
                tr_targetAbsWeight := PyFloat.lit_0_15 |} ]
           [("AAPL"%string, PyFloat.lit_1_0)] 2000000 2000000).
  - vm_compute. reflexivity.
  - vm_compute. reflexivity.
  - left. reflexivity.
Defined.

(** ** A NaN ceiling *)

Lemma trade_step_nan live_prices weights nav trades item trades' :
  trade_step live_prices S754_nan weights nav trades item = Ok trades' ->
  trades' = trades.
Proof.
  destruct item as [ticker n]. unfold trade_step.
  destruct (n =? 0); [intros E; now inversion E|].
  destruct (PyDict.lookup live_prices ticker) as [price|];
    [|intros E; now inversion E].
  destruct (PyFloat.leb _ _); [intros E; now inversion E|].
  unfold PyFloat.mul_int.
  destruct (PyFloat.of_int nav) as [y|]; simpl; [|discriminate].
  discriminate.
Qed.

Lemma trade_loop_nan live_prices weights nav items : forall trades trades',
  for_each (trade_step live_prices S754_nan weights nav) items trades
  = Ok trades' ->
  trades' = trades.
Proof.
  induction items as [|item items IH]; intros trades trades';
    cbn [for_each].
  - intros E; now inversion E.
  - destruct (trade_step _ _ _ _ _ _) as [trades1|] eqn:Estep; cbn [bind];
      [|discriminate].
    apply trade_step_nan in Estep. subst. apply IH.
Qed.

Lemma trade_step_nan_raises live_prices weights nav trades ticker n price :
  n <> 0 -> PyDict.lookup live_prices ticker = Some price ->
  exists e,
    trade_step live_prices S754_nan weights nav trades (ticker, n) = Raise e
    /\ (e = ValueError \/ e = OverflowError).
Proof.
  intros Hn Hp. unfold trade_step.
  destruct (Z.eqb_spec n 0); [contradiction|]. rewrite Hp.
  replace (PyFloat.leb _ S754_nan) with false
    by (unfold PyFloat.leb, SFleb; now destruct (PyFloat.abs _)).
  unfold PyFloat.mul_int.
  destruct (PyFloat.of_int nav) as [y|e] eqn:Ey; simpl.
  - exists ValueError. auto.
  - exists e. split; [reflexivity|]. right.
    unfold PyFloat.of_int in Ey. destruct (PyFloat.is_finite _);
      [discriminate|]. now inversion Ey.
Qed.

(** With a NaN ceiling no trade is ever proposed. The call returns the
    empty list or raises, and it raises whenever some position with a live
    price is not zero: every such position fails the test against the
    ceiling and [int] is then applied to NaN. *)
Theorem nan_ceiling_proposes_nothing :
  forall (holdings : holdings_t) (cash_cents : Z) (live_prices : prices_t),
    (forall trades,
       build_rebalance_trades holdings cash_cents live_prices S754_nan
       = Ok trades -> trades = [])
    /\ ((exists ticker n price,
           In (ticker, n) (PyDict.items holdings) /\ n <> 0
           /\ PyDict.lookup live_prices ticker = Some price) ->
        exists e,
          build_rebalance_trades holdings cash_cents live_prices S754_nan
          = Raise e).
Proof.
  intros holdings cash live_prices. unfold build_rebalance_trades.
  destruct (compute_weights _ _ _) as [[[weights nav] pnav]|e]; simpl.
  - split.
    + intros trades H. now apply trade_loop_nan in H.
    + intros (ticker & n & price & Hin & Hn & Hp).
      destruct (for_each _ _ _) as [trades|e] eqn:E; [|eauto].
      exfalso. revert E. generalize (@nil trade).
      unfold PyDict.items in *.
      induction holdings as [|[k0 n0] items IH]; [destruct Hin|].
      intros trades0. cbn [for_each].
      destruct Hin as [E|Hin].
      * inversion E; subst.
        destruct (trade_step_nan_raises live_prices weights nav trades0
                    ticker n price Hn Hp) as (e & -> & _).
        discriminate.
      * destruct (trade_step _ _ _ _ _ _) as [trades1|]; cbn [bind];
          [|discriminate].
        now apply IH.
  - split; [discriminate|eauto].
Qed.

Lemma nan_ceiling_proposes_nothing_witness :
  exists e,
    build_rebalance_trades [("AAPL"%string, 100)] 0 [("AAPL"%string, 20000)]
      S754_nan = Raise e.
Proof.
  apply (proj2 (nan_ceiling_proposes_nothing [("AAPL"%string, 100)] 0
                  [("AAPL"%string, 20000)])).
  exists "AAPL"%string, 100, 20000.
  split; [left; reflexivity|]. split; [lia|reflexivity].
Defined.

(** ** The ledger after [main] *)

Lemma subseq_in {A : Type} (l1 l2 : list A) x :
  subseq l1 l2 -> In x l1 -> In x l2.
Proof.
  induction 1 as [|y l1 l2 _ IH|y l1 l2 _ IH]; simpl; [tauto|auto|].
  intros [E|H]; auto.
Qed.

Lemma subseq_nodup {A : Type} (l1 l2 : list A) :
  subseq l1 l2 -> NoDup l2 -> NoDup l1.
Proof.
  induction 1 as [|y l1 l2 Hs IH|y l1 l2 Hs IH]; intros Hnd.
  - constructor.
  - inversion Hnd; auto.
  - inversion Hnd as [|? ? Hnotin Hnd']; subst. constructor; [|auto].
    intros Hin. apply Hnotin. eapply subseq_in; eauto.
Qed.

Lemma in_keys_lookup {V : Type} (d : PyDict.dict V) k :
  In k (PyDict.keys d) -> PyDict.lookup d k <> None.
Proof.
  unfold PyDict.keys. induction d as [|[k0 v0] d IH]; simpl; [tauto|].
  destruct (String.eqb_spec k0 k) as [->|Hne]; [discriminate|].
  intros [E|Hin]; [congruence|auto].
Qed.

Lemma holdings_keys_nonempty cfg as_of k :
  In k (PyDict.keys (fst (compute_holdings_and_cash cfg as_of))) ->
  k <> EmptyString.
Proof.
  intros Hin. apply in_keys_lookup in Hin.
  unfold compute_holdings_and_cash in Hin.
  rewrite replay_from_effects in Hin. apply effects_keys in Hin.
  destruct Hin as [Hin|(eff & Hin & ds & dc & ->)]; [now simpl in Hin|].
  apply in_map_iff in Hin. destruct Hin as (tx & E & _).
  unfold applied in E. destruct (after_cut_off _ _); [discriminate|].
  now apply tx_effect_ticker in E.
Qed.

Lemma compute_appended cfg as_of new :
  compute_holdings_and_cash
    {| startingCashCents := startingCashCents cfg;
       transactions := Some (get_or (transactions cfg) [] ++ new) |} as_of
  = replay_from (cut_off_of as_of) (compute_holdings_and_cash cfg as_of) new.
Proof.
  unfold compute_holdings_and_cash. simpl. apply replay_from_app.
Qed.

Lemma trade_tx_effect today t n :
  trims n t -> tr_ticker t <> EmptyString -> 0 <= tr_priceCents t ->
  tx_effect (tx_of_trade today t)
  = Some (tr_ticker t, position_after n t - n,
          - ((position_after n t - n) * tr_priceCents t)).
Proof.
  intros (Hn & Htype & Hshares) Hticker Hprice.
  unfold tx_effect, malformed, position_after. simpl.
  destruct (tr_ticker t) as [|c s] eqn:Et; [congruence|]. simpl.
  destruct (Z.leb_spec (tr_shares t) 0); [lia|].
  destruct (Z.ltb_spec (tr_priceCents t) 0); [lia|]. simpl.
  rewrite Htype. destruct (n >? 0); simpl; repeat f_equal; ring.
Qed.

Lemma effects_lookup_other ticker effs : forall st,
  (forall eff, In eff effs -> ~ names_ticker ticker eff) ->
  PyDict.lookup (fst (fold_left apply_effect effs st)) ticker
  = PyDict.lookup (fst st) ticker.
Proof.
  induction effs as [|eff effs IH]; intros st H; simpl; [reflexivity|].
  rewrite IH by (intros; apply H; now right).
  destruct eff as [[[k ds] dc]|]; simpl; [|reflexivity].
  apply lookup_set_other. intros ->.
  apply (H _ (or_introl eq_refl)). now exists ds, dc.
Qed.

Lemma effects_keep_nav live_prices effs : forall st,
  (forall k ds dc, In (Some (k, ds, dc)) effs ->
     exists price, PyDict.lookup live_prices k = Some price
                   /\ dc = - (ds * price)) ->
  total_nav (fst (fold_left apply_effect effs st))
            (snd (fold_left apply_effect effs st)) live_prices
  = total_nav (fst st) (snd st) live_prices.
Proof.
  induction effs as [|eff effs IH]; intros st H; simpl; [reflexivity|].
  rewrite IH by (intros; eapply H; right; eauto).
  rewrite total_nav_effect. destruct eff as [[[k ds] dc]|]; [|lia].
  destruct (H k ds dc (or_introl eq_refl)) as (price & -> & ->). lia.
Qed.

Lemma net_shares_single (f : trade -> option (string * Z * Z)) (delta : trade -> Z)
    trades :
  (forall t, In t trades -> exists dc, f t = Some (tr_ticker t, delta t, dc)) ->
  NoDup (map tr_ticker trades) ->
  forall t, In t trades ->
    net_shares (tr_ticker t) (map f trades) = delta t.
Proof.
  induction trades as [|t0 trades IH]; intros Hf Hnd t Hin; [destruct Hin|].
  inversion Hnd as [|? ? Hnotin Hnd']; subst. simpl.
  destruct (Hf t0 (or_introl eq_refl)) as (dc0 & E0). rewrite E0. simpl.
  destruct Hin as [->|Hin].
  - rewrite String.eqb_refl.
    assert (net_shares (tr_ticker t) (map f trades) = 0) as ->; [|lia].
    clear IH E0 Hnd Hnd'. induction trades as [|t1 trades IH]; [reflexivity|].
    simpl in *. destruct (Hf t1 (or_intror (or_introl eq_refl))) as (dc1 & ->).
    simpl. destruct (String.eqb_spec (tr_ticker t1) (tr_ticker t)) as [E|_];
      [tauto|].
    rewrite IH; [lia| |tauto].
    intros t' [->|H]; apply Hf; auto.
  - destruct (String.eqb_spec (tr_ticker t0) (tr_ticker t)) as [E|_].
    + exfalso. apply Hnotin. rewrite E. now apply in_map.
    + rewrite IH; auto. intros; apply Hf; now right.
Qed.

Lemma main_wrote_inv cfg cfg' symbols today prices trades :
  load_prices symbols = Ok prices ->
  main cfg symbols today = Ok (Wrote cfg' trades) ->
  build_rebalance_trades (fst (compute_holdings_and_cash cfg None))
    (snd (compute_holdings_and_cash cfg None)) prices MAX_ABS_WEIGHT
  = Ok trades
  /\ cfg' = {| startingCashCents := startingCashCents cfg;
               transactions :=
                 Some (get_or (transactions cfg) []
                       ++ map (tx_of_trade today) trades) |}.
Proof.
  intros Hload. unfold main. rewrite Hload. cbn [bind].
  destruct (compute_holdings_and_cash cfg None) as [holdings cash].
  destruct holdings as [|item holdings]; [discriminate|]. simpl fst. simpl snd.
  destruct (build_rebalance_trades _ _ _ _) as [trades0|]; cbn [bind];
    [|discriminate].
  destruct trades0 as [|t0 trades0]; [discriminate|].
  intros E; inversion E; subst. now split.
Qed.

(** The closed loop of [main]: when it writes trades, with no negative
    live price and a date for today that is not after "9999-12-31",
    replaying the saved ledger gives every traded ticker the position its
    trade leaves, every other ticker its old count, and the same total NAV
    at the live prices. *)
Theorem main_then_replay :
  forall (cfg cfg' : config) (symbols : option snapshot_t) (today_str : string)
         (prices : prices_t) (trades : list trade),
    load_prices symbols = Ok prices ->
    prices_nonneg prices ->
    PyStr.gtb today_str "9999-12-31" = false ->
    main cfg symbols today_str = Ok (Wrote cfg' trades) ->
    let before := compute_holdings_and_cash cfg None in
    let after := compute_holdings_and_cash cfg' None in
    (forall t, In t trades ->
       PyDict.get (fst after) (tr_ticker t) 0
       = position_after (PyDict.get (fst before) (tr_ticker t) 0) t)
    /\ (forall ticker, ~ In ticker (map tr_ticker trades) ->
          PyDict.lookup (fst after) ticker = PyDict.lookup (fst before) ticker)
    /\ total_nav (fst after) (snd after) prices
       = total_nav (fst before) (snd before) prices.
Proof.
  intros cfg cfg' symbols today prices trades Hload Hnonneg Htoday Hmain
    before after.
  destruct (main_wrote_inv _ _ _ _ _ _ Hload Hmain) as [Ebuild ->].
  clear Hmain.
  pose proof (compute_holdings_wf cfg None) as Hwf.
  pose proof (holdings_keys_nonempty cfg None) as Hkeys.
  fold before in Hwf, Hkeys.
  destruct (compute_holdings_and_cash cfg None) as [holdings cash] eqn:Ebefore.
  simpl in Ebuild.
  (* what the builder guarantees for each trade *)
  unfold build_rebalance_trades in Ebuild.
  destruct (compute_weights holdings cash prices)
    as [[[weights nav] pnav]|]; simpl in Ebuild; [|discriminate].
  pose proof (trade_loop_inv _ _ _ _ _ Hnonneg _ _ Ebuild) as Hinv.
  apply trade_loop_emits in Ebuild.
  destruct Ebuild as (new & Enew & Hsub & Hquotes). simpl in Enew. subst new.
  rewrite Forall_forall in Hquotes.
  assert (Hnd : NoDup (map tr_ticker trades)).
  { eapply subseq_nodup; [exact Hsub|exact Hwf]. }
  assert (Heff : forall t, In t trades ->
            applied "9999-12-31" (tx_of_trade today t)
            = Some (tr_ticker t,
                    position_after (PyDict.get holdings (tr_ticker t) 0) t
                    - PyDict.get holdings (tr_ticker t) 0,
                    - ((position_after (PyDict.get holdings (tr_ticker t) 0) t
                        - PyDict.get holdings (tr_ticker t) 0)
                       * tr_priceCents t))).
  { intros t Hin. unfold applied, after_cut_off. simpl. rewrite Htoday.
    rewrite andb_false_r.
    destruct (Hinv t Hin) as [[]|(n & Hitem & Htrims)].
    destruct (Hquotes t Hin) as (Hprice & _).
    unfold before in Hwf. simpl in Hwf.
    unfold PyDict.get. rewrite (in_lookup _ _ _ Hwf Hitem).
    apply trade_tx_effect; [assumption| |eapply Hnonneg; eauto].
    apply Hkeys. simpl. change (tr_ticker t) with (fst (tr_ticker t, n)).
    now apply in_map. }
  unfold after. rewrite compute_appended, Ebefore. simpl cut_off_of.
  rewrite replay_from_effects, map_map.
  unfold before. simpl fst. simpl snd.
  split; [|split].
  - intros t Hin. rewrite effects_net_shares. simpl fst.
    rewrite (net_shares_single _
      (fun t => position_after (PyDict.get holdings (tr_ticker t) 0) t
                - PyDict.get holdings (tr_ticker t) 0) trades); auto; [lia|].
    intros t' Hin'. rewrite (Heff t' Hin'). eauto.
  - intros ticker Hnotin. rewrite effects_lookup_other; [reflexivity|].
    intros eff Hin (ds & dc & ->). apply in_map_iff in Hin.
    destruct Hin as (t & E & Hin). rewrite (Heff t Hin) in E.
    inversion E; subst. apply Hnotin. now apply in_map.
  - rewrite effects_keep_nav; [reflexivity|].
    intros k ds dc Hin. apply in_map_iff in Hin.
    destruct Hin as (t & E & Hin). rewrite (Heff t Hin) in E.
    inversion E; subst. exists (tr_priceCents t).
    split; [|reflexivity]. now destruct (Hquotes t Hin).
Qed.

Lemma main_then_replay_witness :
  PyDict.get
    (fst (compute_holdings_and_cash
            (ledger 1500000
               [ {| tx_date := Some "2024-01-15"%string;
                    tx_ticker := Some "AAPL"%string;
                    tx_type := Some "BUY"%string; tx_shares := Some 100;
                    tx_priceCents := Some 15000 |};
                 {| tx_date := Some "2024-06-03"%string;
                    tx_ticker := Some "AAPL"%string;
                    tx_type := Some "SELL"%string; tx_shares := Some 85;
                    tx_priceCents := Some 20000 |} ]) None))
    "AAPL" 0 = 15.
Proof.
  pose proof (main_then_replay
    (ledger 1500000
       [ {| tx_date := Some "2024-01-15"%string;
            tx_ticker := Some "AAPL"%string;
            tx_type := Some "BUY"%string; tx_shares := Some 100;
            tx_priceCents := Some 15000 |} ])
    (ledger 1500000
       [ {| tx_date := Some "2024-01-15"%string;
            tx_ticker := Some "AAPL"%string;
            tx_type := Some "BUY"%string; tx_shares := Some 100;
            tx_priceCents := Some 15000 |};
         {| tx_date := Some "2024-06-03"%string;
            tx_ticker := Some "AAPL"%string;
            tx_type := Some "SELL"%string; tx_shares := Some 85;
            tx_priceCents := Some 20000 |} ])
    (Some [("AAPL"%string,
            {| info_priceCents := Some (JInt 20000);
               info_currency := Some (JString "USD") |})])
    "2024-06-03" [("AAPL"%string, 20000)]
    [ {| tr_ticker := "AAPL"; tr_type := "SELL"; tr_shares := 85;
         tr_priceCents := 20000; tr_oldWeight := PyFloat.lit_1_0;
         tr_targetAbsWeight := PyFloat.lit_0_15 |} ]) as H.
  destruct H as (H & _ & _).
  - reflexivity.
  - intros ticker price. cbn [PyDict.lookup].
    destruct (String.eqb "AAPL" ticker); [|discriminate].
    intros E; inversion E. lia.
  - reflexivity.
  - vm_compute. reflexivity.
  - exact (H _ (or_introl eq_refl)).
Defined.

(** ** Reading the snapshot *)

Lemma not_in_lookup {V : Type} (d : PyDict.dict V) k :
  ~ In k (PyDict.keys d) -> PyDict.lookup d k = None.
Proof.
  unfold PyDict.keys. induction d as [|[k0 v0] d IH]; simpl; [reflexivity|].
  intros H. destruct (String.eqb_spec k0 k) as [->|Hne]; [tauto|].
  apply IH. tauto.
Qed.

Lemma load_loop_lookup items : forall prices0 prices,
  NoDup (map fst items) ->
  for_each load_prices_step items prices0 = Ok prices ->
  forall k,
    PyDict.lookup prices k
    = match price_read (PyDict.lookup items k) with
      | Some n => Some n
      | None => PyDict.lookup prices0 k
      end.
Proof.
  induction items as [|[k0 info0] items IH]; intros prices0 prices Hnd;
    cbn [for_each].
  - intros E; inversion E; subst. reflexivity.
  - inversion Hnd as [|? ? Hnotin Hnd']; subst. simpl in Hnotin.
    destruct (load_prices_step prices0 (k0, info0)) as [prices1|] eqn:Estep;
      cbn [bind]; [|discriminate].
    intros Hloop k. rewrite (IH _ _ Hnd' Hloop k). simpl PyDict.lookup.
    unfold load_prices_step in Estep.
    destruct (String.eqb_spec k0 k) as [->|Hne].
    + rewrite (not_in_lookup items k Hnotin). simpl.
      destruct (int_of_number (info_priceCents info0)) as [[n|e]|];
        simpl in Estep; inversion Estep; subst; auto.
      apply lookup_set_same.
    + destruct (price_read (PyDict.lookup items k)); [reflexivity|].
      destruct (int_of_number (info_priceCents info0)) as [[n|e]|];
        simpl in Estep; inversion Estep; subst; auto.
      now apply lookup_set_other.
Qed.

(** [load_prices] keeps exactly the symbols whose priceCents is a
    number: an int as it is, a bool as 0 or 1, a float truncated toward
    zero. An entry whose priceCents is missing, null or of another type
    gives no price. *)
Theorem load_prices_reads_numbers :
  forall (symbols : snapshot_t) (prices : prices_t) (ticker : string),
    PyDict.wf symbols ->
    load_prices (Some symbols) = Ok prices ->
    PyDict.lookup prices ticker
    = match PyDict.lookup symbols ticker with
      | Some info =>
          match info_priceCents info with
          | Some (JInt n) => Some n
          | Some (JBool b) => Some (if b then 1 else 0)
          | Some (JFloat x) =>
              match PyFloat.to_int x with
              | Ok n => Some n
              | Raise _ => None
              end
          | _ => None
          end
      | None => None
      end.
Proof.
  intros symbols prices ticker Hwf Hload.
  unfold load_prices in Hload. simpl in Hload.
  rewrite (load_loop_lookup _ _ _ Hwf Hload ticker).
  unfold PyDict.items, price_read.
  destruct (PyDict.lookup symbols ticker) as [info|]; [|reflexivity].
  destruct (info_priceCents info) as [[| | |x| |]|]; simpl; try reflexivity.
  now destruct (PyFloat.to_int x).
Qed.

Lemma load_prices_reads_numbers_witness :
  PyDict.lookup [("AAPL"%string, 20000)] "AAPL" = Some 20000.
Proof.
  apply (load_prices_reads_numbers
    [("AAPL"%string,
      {| info_priceCents := Some (JInt 20000);
         info_currency := Some (JString "USD") |});
     ("MSFT"%string,
      {| info_priceCents := Some JNull; info_currency := None |})]
    [("AAPL"%string, 20000)] "AAPL").
  - repeat constructor; simpl; intuition discriminate.
  - reflexivity.
Defined.

Lemma to_int_raises_iff x :
  (exists e, PyFloat.to_int x = Raise e) <-> PyFloat.is_finite x = false.
Proof.
  destruct x; simpl; split; try discriminate; eauto; intros [err H];
    discriminate.
Qed.

Lemma load_loop_raises items : forall prices0,
  (exists e, for_each load_prices_step items prices0 = Raise e)
  <-> exists k info x,
        In (k, info) items /\ info_priceCents info = Some (JFloat x)
        /\ PyFloat.is_finite x = false.
Proof.
  induction items as [|[k0 info0] items IH]; intros prices0; cbn [for_each].
  - split; [intros [e H]; discriminate|intros (? & ? & ? & [] & _)].
  - unfold load_prices_step at 1.
    destruct (info_priceCents info0) as [[| | |x| |]|] eqn:Epc; simpl;
      try (rewrite IH; split;
           [intros (k & info & y & Hin & H); exists k, info, y; tauto
           |intros (k & info & y & [E|Hin] & Hpc & Hy);
            [inversion E; subst; congruence|eauto 6]]).
    destruct (PyFloat.to_int x) as [n|e] eqn:Ex; simpl.
    + rewrite IH. split.
      * intros (k & info & y & Hin & H). exists k, info, y. tauto.
      * intros (k & info & y & [E|Hin] & Hpc & Hy); [|eauto 6].
        inversion E; subst. rewrite Epc in Hpc. inversion Hpc; subst.
        destruct y; discriminate.
    + split; [|eauto]. intros _. exists k0, info0, x.
      split; [now left|]. split; [assumption|].
      apply to_int_raises_iff. eauto.
Qed.

(** [load_prices] raises exactly when some entry's priceCents is a
    float that is NaN or infinite; a snapshot without a symbols object is
    an empty price map. *)
Theorem load_prices_raises_iff :
  forall symbols : snapshot_t,
    ((exists e, load_prices (Some symbols) = Raise e)
     <-> exists ticker info x,
           In (ticker, info) (PyDict.items symbols)
           /\ info_priceCents info = Some (JFloat x)
           /\ PyFloat.is_finite x = false)
    /\ load_prices None = Ok PyDict.empty.
Proof.
  intros symbols. split; [|reflexivity].
  unfold load_prices. simpl. apply load_loop_raises.
Qed.

(** ** The price history *)

Lemma last_point_snoc series p : last_point (series ++ [p]) = Some p.
Proof.
  induction series as [|q series IH]; [reflexivity|].
  simpl. rewrite IH. now destruct (series ++ [p]) eqn:E;
    [destruct series; discriminate|].
Qed.

Lemma series_cases (series : list price_point) :
  series = [] \/ exists l p, series = l ++ [p].
Proof.
  destruct series as [|q series]; [now left|right].
  destruct (exists_last (l := q :: series)) as (l & p & E); [discriminate|].
  eauto.
Qed.

Lemma record_price_nil today cents :
  record_price today cents []
  = [ {| pp_date := Some today; pp_priceCents := cents |} ].
Proof. reflexivity. Qed.

Lemma record_price_snoc today cents l p :
  record_price today cents (l ++ [p])
  = if match pp_date p with
       | Some d => String.eqb d today
       | None => false
       end
    then l ++ [ {| pp_date := pp_date p; pp_priceCents := cents |} ]
    else (l ++ [p]) ++ [ {| pp_date := Some today; pp_priceCents := cents |} ].
Proof.
  unfold record_price, dated_today. rewrite last_point_snoc.
  now rewrite removelast_last.
Qed.

(** Recording a price leaves a last point dated today with that price,
    and a second recording on the same day replaces the first: the series
    is what the second recording alone would give, so reruns on one day
    never add points. *)
Theorem record_price_last_write_wins :
  forall (today : string) (cents1 cents2 : Z) (series : list price_point),
    last_point (record_price today cents2 series)
    = Some {| pp_date := Some today; pp_priceCents := cents2 |}
    /\ record_price today cents2 (record_price today cents1 series)
       = record_price today cents2 series.
Proof.
  intros today c1 c2 series.
  destruct (series_cases series) as [->|(l & p & ->)].
  - split; [reflexivity|]. rewrite !record_price_nil.
    change [ {| pp_date := Some today; pp_priceCents := c1 |} ]
      with ([] ++ [ {| pp_date := Some today; pp_priceCents := c1 |} ]).
    rewrite record_price_snoc. simpl. now rewrite String.eqb_refl.
  - rewrite !record_price_snoc.
    destruct (pp_date p) as [d|] eqn:Ed.
    + destruct (String.eqb_spec d today) as [->|Hne].
      * rewrite last_point_snoc, record_price_snoc. simpl.
        now rewrite String.eqb_refl.
      * rewrite last_point_snoc, record_price_snoc. simpl.
        now rewrite String.eqb_refl.
    + rewrite last_point_snoc, record_price_snoc. simpl.
      now rewrite String.eqb_refl.
Qed.

Lemma string_compare_refl s : String.compare s s = Eq.
Proof.
  pose proof (String.compare_antisym s s) as H.
  destruct (String.compare s s); simpl in H; congruence.
Qed.

Lemma string_compare_lt_trans a b c :
  String.compare a b = Lt -> String.compare b c = Lt ->
  String.compare a c = Lt.
Proof.
  intros Hab Hbc.
  assert (Hcb : String.compare c b = Gt).
  { rewrite String.compare_antisym, Hbc. reflexivity. }
  pose proof (string_compare_gt_trans c b a Hcb Hab) as Hca.
  rewrite String.compare_antisym, Hca. reflexivity.
Qed.

Lemma dates_increasing_snoc l p q :
  dates_increasing (l ++ [p]) ->
  pp_date q <> None ->
  String.compare (or_empty (pp_date p)) (or_empty (pp_date q)) = Lt ->
  dates_increasing ((l ++ [p]) ++ [q]).
Proof.
  intros H Hq Hlt. induction l as [|r l IH]; simpl in *.
  - destruct H as (Hp & _ & _). repeat split; auto.
  - destruct H as (Hr & Hhead & Htail). split; [assumption|].
    split; [|now apply IH].
    destruct (l ++ [p]) eqn:E; [destruct l; discriminate|]. exact Hhead.
Qed.

Lemma dates_increasing_reprice l p cents :
  dates_increasing (l ++ [p]) ->
  dates_increasing (l ++ [ {| pp_date := pp_date p; pp_priceCents := cents |} ]).
Proof.
  induction l as [|r l IH]; simpl.
  - intros (Hp & _ & _). repeat split; auto.
  - intros (Hr & Hhead & Htail). split; [assumption|].
    split; [|now apply IH].
    destruct l as [|r' l]; simpl in *; assumption.
Qed.

(** A series keeps one point per day in date order: if its dates are
    present and strictly increasing and today is not before the last of
    them, they still are after recording a price. *)
Theorem record_price_keeps_dates_increasing :
  forall (today : string) (cents : Z) (series : list price_point),
    dates_increasing series ->
    (forall p, last_point series = Some p ->
       PyStr.gtb (or_empty (pp_date p)) today = false) ->
    dates_increasing (record_price today cents series).
Proof.
  intros today cents series Hinc Hlast.
  destruct (series_cases series) as [->|(l & p & ->)].
  - simpl. repeat split. discriminate.
  - rewrite record_price_snoc.
    specialize (Hlast p (last_point_snoc l p)).
    assert (Hp : pp_date p <> None).
    { clear Hlast. induction l as [|r l IH]; simpl in Hinc; [tauto|].
      apply IH. tauto. }
    destruct (pp_date p) as [d|] eqn:Ed; [|congruence].
    destruct (String.eqb_spec d today) as [->|Hne].
    + rewrite <- Ed. now apply dates_increasing_reprice.
    + apply dates_increasing_snoc; [assumption|discriminate|].
      rewrite Ed. simpl. unfold PyStr.gtb in Hlast. simpl in Hlast.
      destruct (String.compare d today) eqn:E; [|reflexivity|discriminate].
      apply String.compare_eq_iff in E. contradiction.
Qed.

Lemma record_price_keeps_dates_increasing_witness :
  dates_increasing
    (record_price "2024-06-03" 20100
       [ {| pp_date := Some "2024-05-31"%string; pp_priceCents := 19900 |} ]).
Proof.
  apply record_price_keeps_dates_increasing.
  - simpl. repeat split. discriminate.
  - intros p E. inversion E; subst. reflexivity.
Defined.

(** ** The symbols to track *)

Lemma sorted_add_in x l y : In y (sorted_add x l) <-> y = x \/ In y l.
Proof.
  induction l as [|z l IH]; simpl; [intuition|].
  destruct (String.compare x z) eqn:E; simpl.
  - apply String.compare_eq_iff in E. subst. intuition.
  - intuition.
  - rewrite IH. intuition.
Qed.

Lemma sorted_add_sorted x l :
  strictly_sorted l -> strictly_sorted (sorted_add x l).
Proof.
  induction l as [|z l IH]; simpl; [auto|].
  intros [Hhead Htail].
  destruct (String.compare x z) eqn:E.
  - simpl. auto.
  - simpl. auto.
  - assert (Hzx : String.compare z x = Lt).
    { rewrite String.compare_antisym, E. reflexivity. }
    specialize (IH Htail). cbn [strictly_sorted]. split; [|exact IH].
    destruct l as [|w l]; simpl; [assumption|].
    destruct (String.compare x w); assumption.
Qed.

Lemma add_if_truthy_in s t y :
  In y (add_if_truthy s t) <-> (t = Some y /\ y <> EmptyString) \/ In y s.
Proof.
  unfold add_if_truthy. destruct t as [[|c x]|]; simpl.
  - split; [auto|]. intros [[E H]|H]; [inversion E; subst; congruence|auto].
  - rewrite sorted_add_in. split.
    + intros [->|H]; [left; split; [reflexivity|discriminate]|auto].
    + intros [[E _]|H]; [inversion E; auto|auto].
  - split; [auto|]. intros [[E _]|H]; [discriminate|auto].
Qed.

Lemma add_if_truthy_sorted s t :
  strictly_sorted s -> strictly_sorted (add_if_truthy s t).
Proof.
  unfold add_if_truthy. destruct (PyStr.truthy _); [|auto].
  apply sorted_add_sorted.
Qed.

Lemma fold_add_in ts : forall s y,
  In y (fold_left add_if_truthy ts s)
  <-> (In (Some y) ts /\ y <> EmptyString) \/ In y s.
Proof.
  induction ts as [|t ts IH]; intros s y; simpl; [intuition|].
  rewrite IH, add_if_truthy_in. intuition.
Qed.

Lemma fold_add_sorted ts : forall s,
  strictly_sorted s -> strictly_sorted (fold_left add_if_truthy ts s).
Proof.
  induction ts as [|t ts IH]; intros s H; simpl; [exact H|].
  apply IH. now apply add_if_truthy_sorted.
Qed.

Lemma symbols_to_track_sorted positions cfg :
  strictly_sorted (symbols_to_track positions cfg).
Proof.
  unfold symbols_to_track. simpl.
  apply sorted_add_sorted, fold_add_sorted, fold_add_sorted. exact I.
Qed.

Lemma strictly_sorted_lt_all x l :
  strictly_sorted (x :: l) -> forall y, In y l -> String.compare x y = Lt.
Proof.
  revert x. induction l as [|z l IH]; intros x [Hhead Htail] y; [intros []|].
  intros [->|Hin]; [exact Hhead|].
  eapply string_compare_lt_trans; [exact Hhead|]. now apply IH.
Qed.

Lemma strictly_sorted_nodup l : strictly_sorted l -> NoDup l.
Proof.
  induction l as [|x l IH]; [constructor|].
  intros H. constructor; [|apply IH; now destruct H].
  intros Hin. pose proof (strictly_sorted_lt_all x l H x Hin) as E.
  rewrite string_compare_refl in E. discriminate.
Qed.

(** The symbols fetched are the benchmark SPY and every non-empty
    ticker of a position or a transaction, each once, in increasing
    order. *)
Theorem symbols_to_track_sorted_set :
  forall (positions : list (option string)) (cfg : config),
    strictly_sorted (symbols_to_track positions cfg)
    /\ NoDup (symbols_to_track positions cfg)
    /\ forall symbol,
         In symbol (symbols_to_track positions cfg)
         <-> symbol = "SPY"%string
             \/ (symbol <> EmptyString
                 /\ (In (Some symbol) positions
                     \/ exists tx, In tx (get_or (transactions cfg) [])
                                   /\ tx_ticker tx = Some symbol)).
Proof.
  intros positions cfg.
  split; [apply symbols_to_track_sorted|].
  split; [apply strictly_sorted_nodup, symbols_to_track_sorted|].
  intros symbol. unfold symbols_to_track. simpl.
  rewrite sorted_add_in, !fold_add_in. simpl. rewrite in_map_iff.
  split.
  - intros [->|[[(tx & E & Hin) Hne]|[[Hin Hne]|[]]]]; [auto| |].
    + right. split; [assumption|]. right. eauto.
    + right. split; [assumption|]. now left.
  - intros [->|[Hne [Hin|(tx & Hin & E)]]]; [auto| |].
    + right. right. left. now split.
    + right. left. split; [|assumption]. eauto.
Qed.

(** ** A run of the price updater *)

Section UpdateRun.

Variable fetch : string -> result Z.
Variable today : string.

Lemma update_loop_lookup symbols : forall st,
  NoDup symbols ->
  forall s,
    (In s symbols -> forall cents, fetch s = Ok cents ->
       PyDict.lookup (fst (fold_left (update_step fetch today) symbols st)) s
       = Some {| info_priceCents := Some (JInt cents);
                 info_currency := Some (JString "USD") |}
       /\ PyDict.lookup (snd (fold_left (update_step fetch today) symbols st)) s
          = Some (record_price today cents (PyDict.get (snd st) s [])))
    /\ (~ In s symbols \/ (exists e, fetch s = Raise e) ->
        PyDict.lookup (fst (fold_left (update_step fetch today) symbols st)) s
        = PyDict.lookup (fst st) s
        /\ PyDict.lookup (snd (fold_left (update_step fetch today) symbols st)) s
           = PyDict.lookup (snd st) s).
Proof.
  induction symbols as [|s0 symbols IH]; intros st Hnd s; simpl.
  - split; [intros []|auto].
  - inversion Hnd as [|? ? Hnotin Hnd']; subst.
    destruct (IH (update_step fetch today st s0) Hnd' s) as [IHin IHout].
    split.
    + intros [->|Hin] cents Hf.
      * destruct (IHout (or_introl Hnotin)) as [-> ->].
        unfold update_step. destruct st as [latest history]. rewrite Hf.
        simpl. now rewrite !lookup_set_same.
      * destruct (IHin Hin cents Hf) as [-> ->]. split; [reflexivity|].
        assert (s0 <> s) by (intros ->; contradiction).
        unfold update_step. destruct st as [latest history].
        destruct (fetch s0); simpl; [|reflexivity].
        now rewrite get_set_other.
    + intros H.
      assert (Hout : ~ In s symbols \/ (exists e, fetch s = Raise e))
        by (destruct H; [left; tauto|now right]).
      destruct (IHout Hout) as [-> ->].
      unfold update_step. destruct st as [latest history].
      destruct (fetch s0) as [cents|e] eqn:Ef; simpl; [|auto].
      assert (s0 <> s).
      { intros ->. destruct H as [H|[e H]]; [tauto|congruence]. }
      now rewrite !lookup_set_other.
Qed.

Lemma update_loop_wf symbols : forall st,
  PyDict.wf (fst st) ->
  PyDict.wf (fst (fold_left (update_step fetch today) symbols st)).
Proof.
  induction symbols as [|s0 symbols IH]; intros st H; simpl; [exact H|].
  apply IH. unfold update_step. destruct st as [latest history].
  destruct (fetch s0); simpl; [now apply set_wf|exact H].
Qed.

End UpdateRun.

(** A run of the updater isolates failures: a tracked symbol whose
    fetch succeeds gets its snapshot entry and today's point in its
    history, and a symbol whose fetch raises, or that is not tracked,
    keeps its history as it was and has no snapshot entry. *)
Theorem update_isolates_failed_fetches :
  forall (fetch : string -> result Z) (positions : list (option string))
         (cfg : config) (history_symbols : history_t) (today symbol : string),
    let tracked := symbols_to_track positions cfg in
    let out := update_prices_main fetch positions cfg history_symbols today in
    (forall cents, In symbol tracked -> fetch symbol = Ok cents ->
       PyDict.lookup (fst out) symbol
       = Some {| info_priceCents := Some (JInt cents);
                 info_currency := Some (JString "USD") |}
       /\ PyDict.lookup (snd out) symbol
          = Some (record_price today cents
                    (PyDict.get history_symbols symbol [])))
    /\ (~ In symbol tracked \/ (exists e, fetch symbol = Raise e) ->
        PyDict.lookup (fst out) symbol = None
        /\ PyDict.lookup (snd out) symbol
           = PyDict.lookup history_symbols symbol).
Proof.
  intros fetch positions cfg history today symbol tracked out.
  unfold out, update_prices_main. fold tracked.
  destruct (update_loop_lookup fetch today tracked (PyDict.empty, history)
              (strictly_sorted_nodup _ (symbols_to_track_sorted positions cfg))
              symbol) as [Hin Hout].
  split.
  - intros cents Ht Hf. exact (Hin Ht cents Hf).
  - intros H. exact (Hout H).
Qed.

Lemma update_isolates_failed_fetches_witness :
  PyDict.lookup
    (fst (update_prices_main
            (fun s => if String.eqb s "SPY" then Ok 50000 else Raise ValueError)
            [Some "AAPL"%string] (ledger 0 []) [] "2024-06-03")) "AAPL" = None
  /\ PyDict.lookup
       (snd (update_prices_main
               (fun s => if String.eqb s "SPY" then Ok 50000
                         else Raise ValueError)
               [Some "AAPL"%string] (ledger 0 []) [] "2024-06-03")) "AAPL"
     = PyDict.lookup [] "AAPL".
Proof.
  apply (proj2 (update_isolates_failed_fetches
    (fun s => if String.eqb s "SPY" then Ok 50000 else Raise ValueError)
    [Some "AAPL"%string] (ledger 0 []) [] "2024-06-03" "AAPL")).
  right. exists ValueError. reflexivity.
Defined.

Lemma record_price_twice today cents series :
  record_price today cents (record_price today cents series)
  = record_price today cents series.
Proof.
  destruct (series_cases series) as [->|(l & p & ->)].
  - rewrite record_price_nil.
    change [ {| pp_date := Some today; pp_priceCents := cents |} ]
      with ([] ++ [ {| pp_date := Some today; pp_priceCents := cents |} ]).
    rewrite record_price_snoc. simpl. now rewrite String.eqb_refl.
  - rewrite record_price_snoc.
    destruct (pp_date p) as [d|] eqn:Ed;
      [destruct (String.eqb_spec d today) as [->|Hne]|];
      rewrite record_price_snoc; simpl; now rewrite String.eqb_refl.
Qed.

(** The snapshot the updater writes is read back by [load_prices]
    without error, and the price map holds exactly the prices fetched: a
    tracked symbol whose fetch succeeded has its cents, any other symbol
    has no price. *)
Theorem snapshot_round_trip :
  forall (fetch : string -> result Z) (positions : list (option string))
         (cfg : config) (history_symbols : history_t) (today : string),
    let tracked := symbols_to_track positions cfg in
    let out := update_prices_main fetch positions cfg history_symbols today in
    exists prices,
      load_prices (Some (fst out)) = Ok prices
      /\ forall symbol,
           (forall cents, In symbol tracked -> fetch symbol = Ok cents ->
              PyDict.lookup prices symbol = Some cents)
           /\ (~ In symbol tracked \/ (exists e, fetch symbol = Raise e) ->
               PyDict.lookup prices symbol = None).
Proof.
  intros fetch positions cfg history today tracked out.
  assert (Hnd : NoDup tracked)
    by apply strictly_sorted_nodup, symbols_to_track_sorted.
  assert (Hwf : PyDict.wf (fst out)).
  { unfold out, update_prices_main. apply update_loop_wf. constructor. }
  assert (Hlook := fun s =>
    update_loop_lookup fetch today tracked (PyDict.empty, history) Hnd s).
  fold tracked in Hlook.
  change (fold_left (update_step fetch today) tracked (PyDict.empty, history))
    with out in Hlook.
  destruct (load_prices (Some (fst out))) as [prices|e] eqn:Eload.
  - exists prices. split; [reflexivity|]. intros symbol.
    unfold load_prices in Eload. simpl in Eload.
    pose proof (load_loop_lookup _ _ _ Hwf Eload symbol) as Hp.
    unfold PyDict.items in Hp.
    destruct (Hlook symbol) as [Hin Hout]. split.
    + intros cents Ht Hf. destruct (Hin Ht cents Hf) as [E _].
      rewrite Hp, E. reflexivity.
    + intros H. destruct (Hout H) as [E _]. rewrite Hp, E. reflexivity.
  - exfalso.
    assert (Hr : exists e, load_prices (Some (fst out)) = Raise e) by eauto.
    unfold load_prices in Hr. simpl in Hr. apply load_loop_raises in Hr.
    destruct Hr as (k & info & x & Hitem & Hpc & _).
    apply (in_lookup _ _ _ Hwf) in Hitem.
    destruct (Hlook k) as [Hin Hout].
    destruct (in_dec string_dec k tracked) as [Ht|Ht].
    + destruct (fetch k) as [cents|e'] eqn:Ef.
      * destruct (Hin Ht cents eq_refl) as [E _]. rewrite E in Hitem.
        inversion Hitem; subst. discriminate.
      * destruct (Hout (or_intror (ex_intro _ e' eq_refl))) as [E _].
        rewrite E in Hitem. discriminate.
    + destruct (Hout (or_introl Ht)) as [E _]. rewrite E in Hitem.
      discriminate.
Qed.

Lemma update_loop_rerun :
  forall (fetch : string -> result Z) (positions : list (option string))
         (cfg : config) (history_symbols : history_t) (today : string),
    let first := update_prices_main fetch positions cfg history_symbols today in
    let second := update_prices_main fetch positions cfg (snd first) today in
    PyDict.equiv (snd second) (snd first)
    /\ PyDict.equiv (fst second) (fst first).
Proof.
  intros fetch positions cfg history today first second.
  pose proof (strictly_sorted_nodup _ (symbols_to_track_sorted positions cfg))
    as Hnd.
  split; intros k.
  - destruct (update_loop_lookup fetch today _ (PyDict.empty, snd first) Hnd k)
      as [Hin2 Hout2].
    destruct (update_loop_lookup fetch today _ (PyDict.empty, history) Hnd k)
      as [Hin1 Hout1].
    fold (update_prices_main fetch positions cfg (snd first) today) in Hin2, Hout2.
    fold (update_prices_main fetch positions cfg history today) in Hin1, Hout1.
    fold first in Hin1, Hout1. fold second in Hin2, Hout2.
    destruct (in_dec string_dec k (symbols_to_track positions cfg)) as [Ht|Ht].
    + destruct (fetch k) as [cents|e] eqn:Ef.
      * destruct (Hin2 Ht cents eq_refl) as [_ E2].
        destruct (Hin1 Ht cents eq_refl) as [_ E1].
        rewrite E2, E1. simpl snd. unfold PyDict.get at 1. rewrite E1.
        now rewrite record_price_twice.
      * destruct (Hout2 (or_intror (ex_intro _ e eq_refl))) as [_ E2].
        now rewrite E2.
    + destruct (Hout2 (or_introl Ht)) as [_ E2]. now rewrite E2.
  - destruct (update_loop_lookup fetch today _ (PyDict.empty, snd first) Hnd k)
      as [Hin2 Hout2].
    destruct (update_loop_lookup fetch today _ (PyDict.empty, history) Hnd k)
      as [Hin1 Hout1].
    fold (update_prices_main fetch positions cfg (snd first) today) in Hin2, Hout2.
    fold (update_prices_main fetch positions cfg history today) in Hin1, Hout1.
    fold first in Hin1, Hout1. fold second in Hin2, Hout2.
    destruct (in_dec string_dec k (symbols_to_track positions cfg)) as [Ht|Ht].
    + destruct (fetch k) as [cents|e] eqn:Ef.
      * destruct (Hin2 Ht cents eq_refl) as [E2 _].
        destruct (Hin1 Ht cents eq_refl) as [E1 _].
        now rewrite E2, E1.
      * destruct (Hout2 (or_intror (ex_intro _ e eq_refl))) as [E2 _].
        destruct (Hout1 (or_intror (ex_intro _ e eq_refl))) as [E1 _].
        now rewrite E2, E1.
    + destruct (Hout2 (or_introl Ht)) as [E2 _].
      destruct (Hout1 (or_introl Ht)) as [E1 _].
      now rewrite E2, E1.
Qed.

(** Running the updater again on the same day with the same fetch
    results leaves the history and the symbols of the snapshot as the
    first run wrote them; the snapshot's updatedAt is the time of the
    second run. *)
Theorem update_rerun_same_day :
  forall (fetch : string -> result Z) (positions : list (option string))
         (cfg : config) (history_symbols : history_t)
         (today now1 now2 : string),
    let first :=
      update_prices_files fetch positions cfg history_symbols today now1 in
    let second :=
      update_prices_files fetch positions cfg (snd first) today now2 in
    PyDict.equiv (snd second) (snd first)
    /\ PyDict.equiv (snap_symbols (fst second)) (snap_symbols (fst first))
    /\ snap_updatedAt (fst second) = now2.
Proof.
  intros fetch positions cfg history today now1 now2 first second.
  destruct (update_loop_rerun fetch positions cfg history today) as [Hh Hs].
  unfold second, first, update_prices_files. simpl.
  split; [exact Hh|]. split; [exact Hs|reflexivity].
Qed.

(** ** [main] on an empty portfolio *)

Lemma effects_all_none effs st :
  (forall eff, In eff effs -> eff = None) ->
  fold_left apply_effect effs st = st.
Proof.
  revert st. induction effs as [|eff effs IH]; intros st H; simpl;
    [reflexivity|].
  rewrite (H eff (or_introl eq_refl)). simpl. apply IH.
  intros; apply H; now right.
Qed.

(** [main] stops with nothing to rebalance exactly when replay applies
    no BUY or SELL of the ledger; it then builds no trades and raises
    no NAV error, whatever the cash. *)
Theorem main_stops_on_empty_holdings :
  forall (cfg : config) (symbols : option snapshot_t) (today_str : string)
         (prices : prices_t),
    load_prices symbols = Ok prices ->
    (main cfg symbols today_str = Ok NoHoldings
     <-> forall tx, In tx (get_or (transactions cfg) []) ->
           applied "9999-12-31" tx = None).
Proof.
  intros cfg symbols today prices Hload.
  unfold main. rewrite Hload. cbn [bind].
  pose proof (fun k => effects_keys k
    (map (applied "9999-12-31") (get_or (transactions cfg) []))
    (PyDict.empty, get_or (startingCashCents cfg) 0)) as Hkeys.
  unfold compute_holdings_and_cash. simpl cut_off_of.
  rewrite replay_from_effects.
  split.
  - intros Hmain tx Hin.
    destruct (applied "9999-12-31" tx) as [[[k ds] dc]|] eqn:E; [|reflexivity].
    exfalso.
    destruct (fold_left apply_effect _ _) as [holdings cash] eqn:Efold.
    destruct holdings as [|item holdings].
    + assert (H : PyDict.lookup (@nil (string * Z)) k <> None); [|now apply H].
      change (@nil (string * Z)) with (fst (@nil (string * Z), cash)).
      apply Hkeys. right. exists (Some (k, ds, dc)).
      split; [rewrite <- E; now apply in_map|now exists ds, dc].
    + destruct (build_rebalance_trades _ _ _ _) as [[|t trades]|];
        discriminate.
  - intros Hall. rewrite effects_all_none; [reflexivity|].
    intros eff Hin. apply in_map_iff in Hin.
    destruct Hin as (tx & <- & Hin). now apply Hall.
Qed.

Lemma main_stops_on_empty_holdings_witness :
  main (ledger (-500)
          [ {| tx_date := Some "2024-01-02"%string;
               tx_ticker := Some "XYZ"%string; tx_type := Some "HOLD"%string;
               tx_shares := Some 10; tx_priceCents := Some 100 |} ])
       None "2024-06-03" = Ok NoHoldings.
Proof.
  apply (proj2 (main_stops_on_empty_holdings
    (ledger (-500)
       [ {| tx_date := Some "2024-01-02"%string;
            tx_ticker := Some "XYZ"%string; tx_type := Some "HOLD"%string;
            tx_shares := Some 10; tx_priceCents := Some 100 |} ])
    None "2024-06-03" PyDict.empty eq_refl)).
  intros tx [<-|[]]. reflexivity.
Defined.
